(** * DI-card policy head ([policy_head.py]): a shallow embedding

    The module defines two [nn.Module] classes, [ActionArgHead] and
    [GenshinVAC].  Tensors are embedded as a shape together with row-major
    data; entries range over [Z], which stands for the scalar ring the
    framework computes in (only [+] and [*] are used by the code, rounding is
    out of scope).  Python exceptions are values of [exn] and every operation
    that can raise returns a [result]. *)

From Stdlib Require Import ZArith Lia.
From stdpp Require Import base option list gmap strings.

Local Open Scope string_scope.
Local Open Scope list_scope.
Local Open Scope nat_scope.

(** ** Exceptions and results *)

Inductive exn : Type :=
| NameError (name : string)
| AssertionError (msg : string)
| TypeError (msg : string)
| KeyError (key : string)
| IndexError (msg : string)
| RuntimeError (msg : string)
| AttributeError (msg : string)
| UnboundLocalError (name : string)
| NotImplementedError (msg : string).

Inductive result (A : Type) : Type :=
| Ok (a : A)
| Raise (e : exn).
Arguments Ok {A} a.
Arguments Raise {A} e.

#[global] Instance result_ret : MRet result := @Ok.
#[global] Instance result_bind : MBind result :=
  λ A B f m, match m with Ok a => f a | Raise e => Raise e end.

Definition returns {A} (r : result A) : Prop := ∃ a, r = Ok a.

Definition raises_RuntimeError {A} (r : result A) : Prop :=
  ∃ msg, r = Raise (RuntimeError msg).

Definition raises_NameError {A} (r : result A) : Prop :=
  ∃ name, r = Raise (NameError name).

(** ** Tensors *)

Record Tensor : Type := mkTensor { shape : list nat; data : list Z }.

Definition numel (sh : list nat) : nat := foldr Nat.mul 1 sh.
Definition ndim (t : Tensor) : nat := length (shape t).
Definition entry (t : Tensor) (i : nat) : Z := nth i (data t) 0%Z.

(** Row-major index arithmetic. *)
Fixpoint unravel (sh : list nat) (i : nat) : list nat :=
  match sh with
  | [] => []
  | _ :: sh' => i / numel sh' :: unravel sh' (i mod numel sh')
  end.

Fixpoint ravel (sh idx : list nat) : nat :=
  match sh, idx with
  | _ :: sh', i :: idx' => i * numel sh' + ravel sh' idx'
  | _, _ => 0
  end.

Definition dot (u v : list Z) : Z := foldr Z.add 0%Z (zip_with Z.mul u v).

(** ** The framework primitives used by [ActionArgHead.forward] *)

(** [nn.Linear(in_features, out_features)]: row [j] of [weight] holds the
    weights of output unit [j]. *)
Record Linear : Type := mkLinear {
  in_features : nat;
  out_features : nat;
  weight : list (list Z);
  bias : list Z
}.

(** Calling a [Linear]: [y = x W^T + b] over the last dimension of [x]. *)
Definition Linear_forward (L : Linear) (x : Tensor) : result Tensor :=
  match rev (shape x) with
  | [] => Raise (RuntimeError "both arguments to matmul need to be at least 1D")
  | k :: lead =>
      if decide (k = in_features L) then
        Ok {| shape := rev lead ++ [out_features L];
              data := flat_map
                (λ r, let row := take k (drop (r * k) (data x)) in
                      map (λ j, (dot row (nth j (weight L) []) + nth j (bias L) 0)%Z)
                          (seq 0 (out_features L)))
                (seq 0 (numel (rev lead))) |}
      else Raise (RuntimeError "mat1 and mat2 shapes cannot be multiplied")
  end.

(** Broadcasting of two shapes, aligned from the last dimension. *)
Fixpoint broadcast_rev (a b : list nat) : option (list nat) :=
  match a, b with
  | [], _ => Some b
  | _, [] => Some a
  | x :: a', y :: b' =>
      match broadcast_rev a' b' with
      | Some r =>
          if decide (x = y) then Some (x :: r)
          else if decide (x = 1) then Some (y :: r)
          else if decide (y = 1) then Some (x :: r)
          else None
      | None => None
      end
  end.

Definition broadcast_shapes (a b : list nat) : option (list nat) :=
  @rev nat <$> broadcast_rev (rev a) (rev b).

Definition src_index (sh out_sh idx : list nat) : nat :=
  ravel sh (zip_with (λ d i, if decide (d = 1) then 0 else i) sh
                     (drop (length out_sh - length sh) idx)).

(** [a + b] on tensors. *)
Definition add (a b : Tensor) : result Tensor :=
  match broadcast_shapes (shape a) (shape b) with
  | Some sh =>
      Ok {| shape := sh;
            data := map (λ j, let idx := unravel sh j in
                              (entry a (src_index (shape a) sh idx)
                               + entry b (src_index (shape b) sh idx))%Z)
                        (seq 0 (numel sh)) |}
  | None => Raise (RuntimeError "The size of tensor a must match the size of tensor b")
  end.

(** [t.unsqueeze(dim)] for a non-negative [dim]. *)
Definition unsqueeze (t : Tensor) (dim : nat) : result Tensor :=
  if decide (dim ≤ ndim t) then
    Ok {| shape := take dim (shape t) ++ 1 :: drop dim (shape t); data := data t |}
  else Raise (IndexError "Dimension out of range").

(** [t.T]: the dimensions reversed (the transpose of a matrix). *)
Definition T (t : Tensor) : Tensor :=
  let sh' := rev (shape t) in
  {| shape := sh';
     data := map (λ j, entry t (ravel (shape t) (rev (unravel sh' j))))
                 (seq 0 (numel sh')) |}.

(** [torch.mm(a, b)]: matrix product of two matrices; it does not broadcast
    and accepts 2-D operands only. *)
Definition mm (a b : Tensor) : result Tensor :=
  match shape a, shape b with
  | [n; m], [m'; p] =>
      if decide (m = m') then
        Ok {| shape := [n; p];
              data := flat_map
                (λ i, map (λ j, foldr Z.add 0%Z
                                  (map (λ k, (entry a (i * m + k) * entry b (k * p + j))%Z)
                                       (seq 0 m)))
                          (seq 0 p))
                (seq 0 n) |}
      else Raise (RuntimeError "mat1 and mat2 shapes cannot be multiplied")
  | [_; _], _ => Raise (RuntimeError "mat2 must be a matrix")
  | _, _ => Raise (RuntimeError "self must be a matrix")
  end.

(** [t.squeeze(dim)] for a non-negative [dim]. *)
Definition squeeze (t : Tensor) (dim : nat) : result Tensor :=
  if decide (dim < Nat.max 1 (ndim t)) then
    Ok (if decide (shape t !! dim = Some 1)
        then {| shape := delete dim (shape t); data := data t |}
        else t)
  else Raise (IndexError "Dimension out of range").

(** ** Further framework primitives used by [GenshinVAC] *)

(** First index of a maximal entry, as [torch.argmax] returns it. *)
Fixpoint argmax_from (best_i : nat) (best : Z) (i : nat) (l : list Z) : nat :=
  match l with
  | [] => best_i
  | x :: l' =>
      if (best <? x)%Z then argmax_from i x (S i) l'
      else argmax_from best_i best (S i) l'
  end.

Definition argmax_list (l : list Z) : nat :=
  match l with
  | [] => 0
  | x :: l' => argmax_from 0 x 1 l'
  end.

(** [torch.argmax(t)]: index of the maximum of the flattened tensor. *)
Definition argmax (t : Tensor) : result Tensor :=
  if decide (numel (shape t) = 0) then
    Raise (IndexError "argmax(): Expected reduction dim to be specified for input.numel() == 0")
  else Ok {| shape := []; data := [Z.of_nat (argmax_list (data t))] |}.

(** [torch.argmax(t, dim)]: indices of the maxima along [dim]. *)
Definition argmax_dim (t : Tensor) (dim : nat) : result Tensor :=
  match shape t !! dim with
  | None => Raise (IndexError "Dimension out of range")
  | Some d =>
      if decide (d = 0) then
        Raise (IndexError "argmax(): Expected reduction dim 1 to have non-zero size")
      else
        let inner := numel (drop (S dim) (shape t)) in
        Ok {| shape := delete dim (shape t);
              data := flat_map
                (λ o, map (λ r, Z.of_nat (argmax_list
                                  (map (λ j, entry t ((o * d + j) * inner + r)) (seq 0 d))))
                          (seq 0 inner))
                (seq 0 (numel (take dim (shape t)))) |}
  end.

(** [t.item()]: the value of a one-element tensor. *)
Definition item (t : Tensor) : result Z :=
  if decide (numel (shape t) = 1) then Ok (entry t 0)
  else Raise (RuntimeError "a Tensor with several elements cannot be converted to Scalar").

(** A row of weights [torch.multinomial] accepts: no negative entry and a
    positive sum. *)
Definition valid_weights (ws : list Z) : bool :=
  forallb (λ w, (0 <=? w)%Z) ws && (0 <? foldr Z.add 0 ws)%Z.

(** A shape argument of a constructor: [Union[int, SequenceType]]. *)
Inductive ShapeArg : Type :=
| SInt (n : nat)
| SSeq (dims : list nat).

(** What a method may receive as [inputs]: [Union[torch.Tensor, Dict]]. *)
Inductive Inputs : Type :=
| InTensor (t : Tensor)
| InDict (d : gmap string Tensor).

(** A head of the [ding] library is a callable returning a dictionary of
    tensors ([{'pred': ...}] or [{'logit': ...}]). *)
Definition Head : Type := Inputs → result (gmap string Tensor).

(** The objects a module-level name can be bound to. *)
Inductive GlobalVal : Type :=
| GObject                              (* a module, class or function *)
| GInt (n : Z)
| GDictIntStr (d : gmap Z string)
| GDictStrStr (d : gmap string string)
| GDictTupleInt (d : gmap (list string) Z).

(** The parts that come from outside the file: the random generator behind
    [torch.multinomial], the initial weights of [nn.Linear], and the [ding]
    helpers [squeeze], [RegressionHead] and [DiscreteHead]. *)
Record Framework : Type := mkFramework {
  Rng : Type;
  categorical : Rng → list Z → nat * Rng;
  Activation : Type;
  ding_squeeze : ShapeArg → ShapeArg;
  RegressionHead : nat → nat → nat → Activation → option string → result Head;
  DiscreteHead : ShapeArg → nat → GlobalVal → Activation → option string → result Head;
  nn_Linear : nat → ShapeArg → result Linear
}.

(** One categorical draw per row, threading the generator. *)
Fixpoint draw_rows (F : Framework) (g : Rng F) (rows : list (list Z))
  : result (list Z * Rng F) :=
  match rows with
  | [] => Ok ([], g)
  | ws :: rows' =>
      if valid_weights ws then
        let '(i, g1) := categorical F g ws in
        '(idxs, g2) ← draw_rows F g1 rows';
        Ok (Z.of_nat i :: idxs, g2)
      else Raise (RuntimeError "invalid multinomial distribution")
  end.

(** [torch.multinomial(input, 1)]. *)
Definition multinomial (F : Framework) (g : Rng F) (input : Tensor)
  : result (Tensor * Rng F) :=
  match shape input with
  | [n] =>
      '(idxs, g') ← draw_rows F g [data input];
      Ok ({| shape := [1]; data := idxs |}, g')
  | [m; n] =>
      '(idxs, g') ← draw_rows F g (map (λ r, take n (drop (r * n) (data input))) (seq 0 m));
      Ok ({| shape := [m; 1]; data := idxs |}, g')
  | _ => Raise (RuntimeError "prob_dist must be 1 or 2 dim")
  end.

(** ** Name resolution *)

(** Names bound at module level by lines 1-11 and 47, with the names every
    module has. *)
Definition module_names : list string :=
  [ "__name__"; "__doc__"; "__package__"; "__loader__"; "__spec__"; "__file__";
    "__cached__"; "__builtins__";
    "Union"; "Dict"; "Optional"; "EasyDict"; "torch"; "nn"; "deepcopy";
    "SequenceType"; "squeeze"; "MODEL_REGISTRY";
    "ReparameterizationHead"; "RegressionHead"; "DiscreteHead"; "MultiHead";
    "FCEncoder"; "ConvEncoder"; "IMPALAConvEncoder";
    "ActionSpace"; "ActionType"; "ActionArgHead"; "GenshinVAC" ].

(** The names of the [builtins] module. *)
Definition builtin_names : list string :=
  [ "abs"; "aiter"; "all"; "anext"; "any"; "ascii"; "bin"; "bool"; "breakpoint";
    "bytearray"; "bytes"; "callable"; "chr"; "classmethod"; "compile"; "complex";
    "copyright"; "credits"; "delattr"; "dict"; "dir"; "divmod"; "enumerate";
    "eval"; "exec"; "exit"; "filter"; "float"; "format"; "frozenset"; "getattr";
    "globals"; "hasattr"; "hash"; "help"; "hex"; "id"; "input"; "int";
    "isinstance"; "issubclass"; "iter"; "len"; "license"; "list"; "locals"; "map";
    "max"; "memoryview"; "min"; "next"; "object"; "oct"; "open"; "ord"; "pow";
    "print"; "property"; "quit"; "range"; "repr"; "reversed"; "round"; "set";
    "setattr"; "slice"; "sorted"; "staticmethod"; "str"; "sum"; "super"; "tuple";
    "type"; "vars"; "zip"; "__import__"; "__build_class__"; "__debug__";
    "Ellipsis"; "NotImplemented";
    "BaseException"; "Exception"; "ArithmeticError"; "AssertionError";
    "AttributeError"; "BlockingIOError"; "BrokenPipeError"; "BufferError";
    "BytesWarning"; "ChildProcessError"; "ConnectionAbortedError";
    "ConnectionError"; "ConnectionRefusedError"; "ConnectionResetError";
    "DeprecationWarning"; "EOFError"; "EnvironmentError"; "FileExistsError";
    "FileNotFoundError"; "FloatingPointError"; "FutureWarning"; "GeneratorExit";
    "IOError"; "ImportError"; "ImportWarning"; "IndentationError"; "IndexError";
    "InterruptedError"; "IsADirectoryError"; "KeyError"; "KeyboardInterrupt";
    "LookupError"; "MemoryError"; "ModuleNotFoundError"; "NameError";
    "NotADirectoryError"; "NotImplementedError"; "OSError"; "OverflowError";
    "PendingDeprecationWarning"; "PermissionError"; "ProcessLookupError";
    "RecursionError"; "ReferenceError"; "ResourceWarning"; "RuntimeError";
    "RuntimeWarning"; "StopAsyncIteration"; "StopIteration"; "SyntaxError";
    "SyntaxWarning"; "SystemError"; "SystemExit"; "TabError"; "TimeoutError";
    "TypeError"; "UnboundLocalError"; "UnicodeDecodeError"; "UnicodeEncodeError";
    "UnicodeError"; "UnicodeTranslateError"; "UnicodeWarning"; "UserWarning";
    "ValueError"; "Warning"; "ZeroDivisionError" ].

(** The global scope in which the methods of the file run. *)
Definition module_globals : gmap string GlobalVal :=
  list_to_map (map (λ name, (name, GObject)) (module_names ++ builtin_names)).

(** A name that is not a local variable of the function is looked up in the
    globals (then the builtins); a class attribute is not in scope. *)
Definition load_global (G : gmap string GlobalVal) (name : string) : result GlobalVal :=
  match G !! name with
  | Some v => Ok v
  | None => Raise (NameError name)
  end.

(** [v[k1, k2]]: subscription by a tuple of strings.  The objects of the
    module scope are not subscripted by the methods and count as not
    subscriptable. *)
Definition getitem_tuple (v : GlobalVal) (key : list string) : result GlobalVal :=
  match v with
  | GDictTupleInt d =>
      match d !! key with
      | Some n => Ok (GInt n)
      | None => Raise (KeyError (String.concat ", " key))
      end
  | GDictIntStr _ | GDictStrStr _ => Raise (KeyError (String.concat ", " key))
  | GObject | GInt _ => Raise (TypeError "object is not subscriptable")
  end.

(** [v[k]] for an integer [k]. *)
Definition getitem_int (v : GlobalVal) (k : Z) : result string :=
  match v with
  | GDictIntStr d =>
      match d !! k with
      | Some s => Ok s
      | None => Raise (KeyError "action type")
      end
  | GDictStrStr _ | GDictTupleInt _ => Raise (KeyError "action type")
  | GObject | GInt _ => Raise (TypeError "object is not subscriptable")
  end.

(** [v[k]] for a string [k]. *)
Definition getitem_str (v : GlobalVal) (k : string) : result string :=
  match v with
  | GDictStrStr d =>
      match d !! k with
      | Some s => Ok s
      | None => Raise (KeyError k)
      end
  | GDictIntStr _ | GDictTupleInt _ => Raise (KeyError k)
  | GObject | GInt _ => Raise (TypeError "object is not subscriptable")
  end.

Definition truthy (v : GlobalVal) : bool :=
  match v with
  | GObject => true
  | GInt n => negb (n =? 0)%Z
  | GDictIntStr d => negb (bool_decide (d = ∅))
  | GDictStrStr d => negb (bool_decide (d = ∅))
  | GDictTupleInt d => negb (bool_decide (d = ∅))
  end.

(** [d[key]] on a dictionary of tensors. *)
Definition dict_getitem {V} (d : gmap string V) (key : string) : result V :=
  match d !! key with
  | Some v => Ok v
  | None => Raise (KeyError key)
  end.

(** Python values the methods return. *)
#[warnings="-register-all"] Inductive PyVal : Type :=
| PInt (z : Z)
| PTensor (t : Tensor)
| PDict (items : list (string * PyVal)).

Fixpoint assoc {V} (items : list (string * V)) (key : string) : option V :=
  match items with
  | [] => None
  | (k, v) :: items' => if decide (k = key) then Some v else assoc items' key
  end.

(** [v.get(key)] on a returned dictionary. *)
Definition py_get (v : PyVal) (key : string) : option PyVal :=
  match v with
  | PDict items => assoc items key
  | _ => None
  end.

(** ** [ActionArgHead] (lines 11-44) *)

Module ActionArgHead.

Record t : Type := mk { W_k : Linear; W_q : Linear }.

(** [__init__] (lines 18-28); [obs_embedding_shape] is not used. *)
Definition __init__ (F : Framework)
    (encoded_part_obs_shape : nat) (obs_embedding_shape : ShapeArg)
    (action_type_logit_shape : nat) (hidden_size : ShapeArg) : result t :=
  W_k ← nn_Linear F encoded_part_obs_shape hidden_size;
  W_q ← nn_Linear F action_type_logit_shape hidden_size;
  Ok {| W_k := W_k; W_q := W_q |}.

(** [forward] (lines 30-44), statement by statement. *)
Definition forward (self : t) (obs_embedding action_type_logit encoded_part_obs : Tensor)
  : result Tensor :=
  key ← Linear_forward (W_k self) encoded_part_obs;
  q ← Linear_forward (W_q self) action_type_logit;
  query ← add q obs_embedding;
  query ← unsqueeze query 1;
  logit ← mm query (T key);
  logit ← squeeze logit 1;
  Ok logit.

End ActionArgHead.

(** Modelled from the spec: the action-space description of module [action],
    which the file imports: the number of action types
    ([action_space['action_type_space'].n]) and the names of the argument
    groups ([action_space['action_arg_space']], in iteration order). *)
Record ActionSpace : Type := mkActionSpace {
  action_type_space_n : nat;
  action_arg_space : list string
}.

(** ** [GenshinVAC] (lines 47-181) *)

Module GenshinVAC.

(** Class attributes (lines 54-59).  [action_type_names] is built by
    reflection over the enumeration [ActionType] of module [action]; its
    public non-callable attributes are taken as a parameter. *)
Definition mode : list string :=
  ["compute_actor"; "compute_critic"; "compute_actor_critic"].

Definition action_type_names (ActionType_attrs : list (string * Z)) : gmap Z string :=
  foldl (λ d kv, <[kv.2 := kv.1]> d) ∅ ActionType_attrs.

Definition action_obs_name_map : gmap string string :=
  {[ "play_card" := "card_obs";
     "use_skill" := "skill_obs";
     "change_character" := "character_obs" ]}.

(** An instance: the attributes [__init__] assigns. *)
Record t : Type := mk {
  obs_embedding_shape : ShapeArg;
  action_shape : ShapeArg;
  critic_head : Head;
  actor_action_type : Head;
  actor_action_args : gmap string ActionArgHead.t
}.

(** The dictionary comprehension of lines 97-105: the value expression
    (lines 98-103), one iteration with its filter (line 104), and the
    whole comprehension. *)
Definition new_arg_head (F : Framework) (G : gmap string GlobalVal)
    (action_space : ActionSpace) (encoded_obs_shape : gmap string nat)
    (obs_embedding_shape : ShapeArg) (action_name : string) : result ActionArgHead.t :=
  tbl ← load_global G "action_obs_name_map";
  obs_name ← getitem_str tbl action_name;
  part_shape ← dict_getitem encoded_obs_shape obs_name;
  ActionArgHead.__init__ F part_shape obs_embedding_shape
    (action_type_space_n action_space) obs_embedding_shape.

Definition add_arg_head (F : Framework) (G : gmap string GlobalVal)
    (action_space : ActionSpace) (encoded_obs_shape : gmap string nat)
    (obs_embedding_shape : ShapeArg)
    (acc : result (gmap string ActionArgHead.t)) (action_name : string)
  : result (gmap string ActionArgHead.t) :=
  d ← acc;
  if decide (action_name ∈ ["elemental_harmony"; "end_round"]) then Ok d
  else
    head ← new_arg_head F G action_space encoded_obs_shape obs_embedding_shape
             action_name;
    Ok (<[action_name := head]> d).

Definition build_actor_action_args (F : Framework) (G : gmap string GlobalVal)
    (action_space : ActionSpace) (encoded_obs_shape : gmap string nat)
    (obs_embedding_shape : ShapeArg) : result (gmap string ActionArgHead.t) :=
  foldl (add_arg_head F G action_space encoded_obs_shape obs_embedding_shape)
        (Ok ∅) (action_arg_space action_space).

(** [__init__] (lines 60-106). *)
Definition __init__ (F : Framework) (G : gmap string GlobalVal)
    (obs_embedding_shape action_shape : ShapeArg) (action_space : ActionSpace)
    (encoded_obs_shape : gmap string nat)
    (critic_head_hidden_size critic_head_layer_num : nat)
    (activation : Activation F) (norm_type : option string) : result t :=
  let obs_embedding_shape := ding_squeeze F obs_embedding_shape in
  critic_head ← RegressionHead F critic_head_hidden_size 1 critic_head_layer_num
                   activation norm_type;
  actor_head_layer_num ← load_global G "actor_head_layer_num";
  actor_action_type ← DiscreteHead F obs_embedding_shape
                         (action_type_space_n action_space) actor_head_layer_num
                         activation norm_type;
  actor_action_args ← build_actor_action_args F G action_space encoded_obs_shape
                         obs_embedding_shape;
  Ok {| obs_embedding_shape := obs_embedding_shape;
        action_shape := action_shape;
        critic_head := critic_head;
        actor_action_type := actor_action_type;
        actor_action_args := actor_action_args |}.

(** [compute_critic] (lines 145-147). *)
Definition compute_critic (self : t) (obs_embedding : Inputs) : result PyVal :=
  x ← critic_head self obs_embedding;
  pred ← dict_getitem x "pred";
  Ok (PDict [("value", PTensor pred)]).

(** The assertion of lines 119 and 157.  As written, it subscripts the
    name [sample_action_typein] with the pair of strings. *)
Definition check_sample_action_type (G : gmap string GlobalVal) : result unit :=
  v ← load_global G "sample_action_typein";
  c ← getitem_tuple v ["argmax"; "normal"];
  if truthy c then Ok ()
  else Raise (AssertionError "sample_action_type should be 'argmax' or 'normal'").

(** Lines 124-130 (and 134-140, 162-168, 172-178): from the selected
    action type to the logit of its arguments. *)
Definition action_args_logit_of (G : gmap string GlobalVal) (self : t)
    (obs_embedding : Tensor) (encoded_obs : gmap string Tensor)
    (action_type_logit : Tensor) (action_type : Z) : result Tensor :=
  names ← load_global G "action_type_names";
  select_action_name ← getitem_int names action_type;
  tbl ← load_global G "action_obs_name_map";
  select_encoded_obs_name ← getitem_str tbl select_action_name;
  head ← dict_getitem (actor_action_args self) select_action_name;
  part ← dict_getitem encoded_obs select_encoded_obs_name;
  ActionArgHead.forward head obs_embedding action_type_logit part.

(** [torch.multinomial(logit, 1).item()]. *)
Definition multinomial_item (F : Framework) (g : Rng F) (logit : Tensor)
  : result (Z * Rng F) :=
  '(s, g) ← multinomial F g logit;
  x ← item s;
  Ok (x, g).

(** [torch.argmax(logit).item()] and [torch.argmax(logit, 1).item()]. *)
Definition argmax_item (logit : Tensor) : result Z :=
  s ← argmax logit;
  item s.

Definition argmax_dim_item (logit : Tensor) (dim : nat) : result Z :=
  s ← argmax_dim logit dim;
  item s.

(** The selection of lines 122-141 (and 160-179): it binds [action_type]
    and [action_args], or neither when no branch is taken. *)
Definition select_action (F : Framework) (G : gmap string GlobalVal) (self : t)
    (obs_embedding : Tensor) (encoded_obs : gmap string Tensor)
    (sample_action_type : string) (action_type_logit : Tensor) (g : Rng F)
  : result (option (Z * Z) * Rng F) :=
  if decide (sample_action_type = "normal") then
    '(action_type, g) ← multinomial_item F g action_type_logit;
    action_args_logit ← action_args_logit_of G self obs_embedding encoded_obs
                           action_type_logit action_type;
    '(action_args, g) ← multinomial_item F g action_args_logit;
    Ok (Some (action_type, action_args), g)
  else if decide (sample_action_type = "argmax") then
    action_type ← argmax_item action_type_logit;
    action_args_logit ← action_args_logit_of G self obs_embedding encoded_obs
                           action_type_logit action_type;
    action_args ← argmax_dim_item action_args_logit 1;
    Ok (Some (action_type, action_args), g)
  else Ok (None, g).

(** Lines 119-141 of [compute_actor], repeated as lines 157-179 of
    [compute_actor_critic]. *)
Definition actor_body (F : Framework) (G : gmap string GlobalVal) (self : t)
    (obs_embedding : Tensor) (encoded_obs : gmap string Tensor)
    (sample_action_type : string) (g : Rng F) : result (Z * Z * Rng F) :=
  _ ← check_sample_action_type G;
  out ← actor_action_type self (InTensor obs_embedding);
  action_type_logit ← dict_getitem out "logit";
  '(sel, g) ← select_action F G self obs_embedding encoded_obs sample_action_type
                 action_type_logit g;
  match sel with
  | Some (action_type, action_args) => Ok (action_type, action_args, g)
  | None => Raise (UnboundLocalError "action_type")
  end.

Definition logit_dict (action_type action_args : Z) : PyVal :=
  PDict [("action_type", PInt action_type); ("action_args", PInt action_args)].

(** [compute_actor] (lines 112-143). *)
Definition compute_actor (F : Framework) (G : gmap string GlobalVal) (self : t)
    (obs_embedding : Tensor) (encoded_obs : gmap string Tensor)
    (sample_action_type : string) (g : Rng F) : result (PyVal * Rng F) :=
  '(action_type, action_args, g) ← actor_body F G self obs_embedding encoded_obs
                                      sample_action_type g;
  Ok (PDict [("logit", logit_dict action_type action_args)], g).

(** [compute_actor_critic] (lines 149-181). *)
Definition compute_actor_critic (F : Framework) (G : gmap string GlobalVal) (self : t)
    (obs_embedding : Tensor) (encoded_obs : gmap string Tensor)
    (sample_action_type : string) (g : Rng F) : result (PyVal * Rng F) :=
  x ← critic_head self (InTensor obs_embedding);
  value ← dict_getitem x "pred";
  '(action_type, action_args, g) ← actor_body F G self obs_embedding encoded_obs
                                      sample_action_type g;
  Ok (PDict [("logit", logit_dict action_type action_args); ("value", PTensor value)], g).

(** The three methods [forward] can reach, and [getattr(self, name)] on
    their names. *)
Inductive method : Type := m_compute_actor | m_compute_critic | m_compute_actor_critic.

Definition method_name (m : method) : string :=
  match m with
  | m_compute_actor => "compute_actor"
  | m_compute_critic => "compute_critic"
  | m_compute_actor_critic => "compute_actor_critic"
  end.

Definition getattr (name : string) : result method :=
  if decide (name = "compute_actor") then Ok m_compute_actor
  else if decide (name = "compute_critic") then Ok m_compute_critic
  else if decide (name = "compute_actor_critic") then Ok m_compute_actor_critic
  else Raise (AttributeError name).

(** Calling a bound method with the single positional argument [inputs]:
    [compute_critic] binds it to [obs_embedding]; the other two have a
    second required parameter, [encoded_obs] (lines 115 and 152). *)
Definition call (self : t) (m : method) (inputs : Inputs) : result PyVal :=
  match m with
  | m_compute_critic => compute_critic self inputs
  | m_compute_actor =>
      Raise (TypeError "compute_actor() missing 1 required positional argument: 'encoded_obs'")
  | m_compute_actor_critic =>
      Raise (TypeError "compute_actor_critic() missing 1 required positional argument: 'encoded_obs'")
  end.

(** [str(l)] of a list of strings. *)
Definition str_list (l : list string) : string :=
  "[" +:+ String.concat ", " (map (λ s, "'" +:+ s +:+ "'") l) +:+ "]".

(** [forward] (lines 108-110). *)
Definition forward (self : t) (inputs : Inputs) (mode : string) : result PyVal :=
  if decide (mode ∈ GenshinVAC.mode) then
    m ← getattr mode;
    call self m inputs
  else
    Raise (AssertionError ("not support forward mode: " +:+ mode +:+ "/"
                           +:+ str_list GenshinVAC.mode)).

End GenshinVAC.

(** ** The scoring the specification describes *)

(** The logit in the words of the specification: entry [(b, a)] is the dot
    product of the query row [W_q(action_type_logit)[b] + obs_embedding[b]]
    with the key row [W_k(encoded_part_obs)[b][a]]. *)
Definition spec_dot_product_logit (self : ActionArgHead.t)
    (obs_embedding action_type_logit encoded_part_obs : Tensor) : result Tensor :=
  key ← Linear_forward (ActionArgHead.W_k self) encoded_part_obs;
  q ← Linear_forward (ActionArgHead.W_q self) action_type_logit;
  query ← add q obs_embedding;
  match shape key, shape query with
  | [B; A; H], [B'; H'] =>
      if decide (B = B' ∧ H = H') then
        Ok {| shape := [B; A];
              data := flat_map
                (λ b, map (λ a, dot (take H (drop (b * H) (data query)))
                                    (take H (drop ((b * A + a) * H) (data key))))
                          (seq 0 A))
                (seq 0 B) |}
      else Raise (RuntimeError "query and key do not match")
  | _, _ => Raise (RuntimeError "query and key do not match")
  end.

(** ** The regression head of the [ding] library

    [RegressionHead(hidden_size, output_size, layer_num, activation,
    norm_type)], which line 79 calls, is [layer_num] blocks, each a
    [Linear(hidden_size, hidden_size)] followed by the normalisation, when
    one is asked for, and by the activation, and then a
    [Linear(hidden_size, output_size)].  Its [forward] returns
    [{'pred': x}], where a last dimension of size one is squeezed out of [x]
    when [x] has more than one dimension.  The weights, set at random by the
    library, and the normalisation layers are parameters. *)

Definition tensor_map (f : Z → Z) (t : Tensor) : Tensor :=
  {| shape := shape t; data := map f (data t) |}.

Record RegressionHeadT : Type := mkRegressionHeadT {
  rh_main : list Linear;
  rh_norm : option (Tensor → result Tensor);
  rh_activation : option (Z → Z);
  rh_last : Linear
}.

Definition fc_block (norm : option (Tensor → result Tensor)) (act : option (Z → Z))
    (L : Linear) (x : Tensor) : result Tensor :=
  y ← Linear_forward L x;
  y ← match norm with Some n => n y | None => Ok y end;
  Ok (match act with Some f => tensor_map f y | None => y end).

Definition MLP_forward (norm : option (Tensor → result Tensor)) (act : option (Z → Z))
    (layers : list Linear) (x : Tensor) : result Tensor :=
  foldl (λ acc L, x ← acc; fc_block norm act L x) (Ok x) layers.

(** [x.squeeze(-1)] when [x.shape[-1] == 1] and [len(x.shape) > 1]. *)
Definition squeeze_last (t : Tensor) : Tensor :=
  match rev (shape t) with
  | 1 :: lead =>
      match lead with
      | [] => t
      | _ :: _ => {| shape := rev lead; data := data t |}
      end
  | _ => t
  end.

Definition RegressionHead_forward (h : RegressionHeadT) : Head :=
  λ x, match x with
       | InTensor t =>
           y ← MLP_forward (rh_norm h) (rh_activation h) (rh_main h) t;
           y ← Linear_forward (rh_last h) y;
           Ok {[ "pred" := squeeze_last y ]}
       | InDict _ => Raise (TypeError "linear(): argument 'input' must be Tensor, not dict")
       end.

(** The normalisations [build_normalization(norm_type, dim=1)] knows. *)
Definition supported_norms : list string := ["BN"; "IN"; "LN"; "SyncBN"].

(** The constructor.  The normalisation is looked up once per block, so
    only when there is a block. *)
Definition ding_RegressionHead
    (weights : nat → list (list Z) * list Z)
    (norms : string → nat → Tensor → result Tensor)
    (hidden_size output_size layer_num : nat)
    (activation : option (Z → Z)) (norm_type : option string) : result Head :=
  norm ← match layer_num, norm_type with
         | 0, _ => Ok None
         | S _, None => Ok None
         | S _, Some nt =>
             if decide (nt ∈ supported_norms) then Ok (Some (norms nt hidden_size))
             else Raise (NotImplementedError
                           ("not support indicated dim when creates " +:+ nt))
         end;
  Ok (RegressionHead_forward
        {| rh_main := map (λ i, mkLinear hidden_size hidden_size
                                  (weights i).1 (weights i).2)
                          (seq 0 layer_num);
           rh_norm := norm;
           rh_activation := activation;
           rh_last := mkLinear hidden_size output_size
                        (weights layer_num).1 (weights layer_num).2 |}).

Definition relu (x : Z) : Z := Z.max 0 x.

(** ** A small instance of the framework, for concrete evaluation *)

(** A head with a single linear layer, returning its output under [key]. *)
Definition linear_head (key : string) (L : Linear) : Head :=
  λ x, match x with
       | InTensor t => y ← Linear_forward L t; Ok {[ key := y ]}
       | InDict _ => Raise (TypeError "linear(): argument 'input' must be Tensor, not dict")
       end.

Definition ones_Linear (n m : nat) : Linear :=
  {| in_features := n; out_features := m;
     weight := replicate m (replicate n 1%Z); bias := replicate m 0%Z |}.

Definition as_int (s : ShapeArg) : result nat :=
  match s with
  | SInt n => Ok n
  | SSeq _ => Raise (TypeError "empty() received an invalid combination of arguments")
  end.

Definition toy_framework : Framework :=
  {| Rng := nat;
     categorical := λ g ws,
       let support := filter (λ i, (0 < nth i ws 0)%Z) (seq 0 (length ws)) in
       (nth (g mod length support) support 0, S g);
     Activation := unit;
     ding_squeeze := λ s, match s with SSeq [n] => SInt n | _ => s end;
     RegressionHead := λ hidden out _ _ _,
       Ok (λ x, r ← linear_head "pred" (ones_Linear hidden out) x;
                p ← dict_getitem r "pred";
                Ok {[ "pred" := squeeze_last p ]});
     DiscreteHead := λ hidden out _ _ _,
       n ← as_int hidden; Ok (linear_head "logit" (ones_Linear n out));
     nn_Linear := λ n hidden, m ← as_int hidden; Ok (ones_Linear n m) |}.

Definition toy_arg_head : ActionArgHead.t :=
  {| ActionArgHead.W_k := ones_Linear 2 2; ActionArgHead.W_q := ones_Linear 3 2 |}.

Definition toy_self : GenshinVAC.t :=
  {| GenshinVAC.obs_embedding_shape := SInt 2;
     GenshinVAC.action_shape := SInt 3;
     GenshinVAC.critic_head := linear_head "pred" (ones_Linear 2 1);
     GenshinVAC.actor_action_type := linear_head "logit" (ones_Linear 2 3);
     GenshinVAC.actor_action_args := {[ "play_card" := toy_arg_head ]} |}.

Definition toy_obs : Tensor := {| shape := [1; 2]; data := [1; 2]%Z |}.
Definition toy_logit : Tensor := {| shape := [1; 3]; data := [3; 0; 1]%Z |}.
Definition toy_part_obs : Tensor := {| shape := [1; 2; 2]; data := [1; 0; 2; 5]%Z |}.
Definition toy_encoded_obs : gmap string Tensor := {[ "card_obs" := toy_part_obs ]}.

(** A global scope in which the names the class uses bare are bound as the
    class attributes and the commented-out parameter suggest. *)
Definition completed_globals : gmap string GlobalVal :=
  <["action_type_names" :=
      GDictIntStr (GenshinVAC.action_type_names
                     [("change_character", 2%Z); ("end_round", 3%Z);
                      ("play_card", 0%Z); ("use_skill", 1%Z)])]>
  (<["action_obs_name_map" := GDictStrStr GenshinVAC.action_obs_name_map]>
   (<["actor_head_layer_num" := GInt 1]> module_globals)).

(** An unbatched instance with keys of width one, on which
    [ActionArgHead.forward] returns. *)
Definition unbatched_arg_head : ActionArgHead.t :=
  {| ActionArgHead.W_k := ones_Linear 2 1; ActionArgHead.W_q := ones_Linear 3 1 |}.

Definition unbatched_self : GenshinVAC.t :=
  {| GenshinVAC.obs_embedding_shape := SInt 1;
     GenshinVAC.action_shape := SInt 3;
     GenshinVAC.critic_head := linear_head "pred" (ones_Linear 1 1);
     GenshinVAC.actor_action_type :=
       linear_head "logit" (mkLinear 1 3 [[1%Z]; [2%Z]; [0%Z]] [0%Z; 0%Z; 0%Z]);
     GenshinVAC.actor_action_args := {[ "use_skill" := unbatched_arg_head ]} |}.

Definition unbatched_obs : Tensor := {| shape := [1]; data := [5%Z] |}.
Definition unbatched_logit : Tensor := {| shape := [3]; data := [5; 10; 0]%Z |}.
Definition unbatched_part_obs : Tensor :=
  {| shape := [3; 2]; data := [1; 0; 2; 5; 1; 1]%Z |}.
Definition unbatched_encoded_obs : gmap string Tensor :=
  {[ "skill_obs" := unbatched_part_obs ]}.

(** The argument head the small framework builds for a region of width 2,
    three action types and a hidden size of 2. *)
Definition toy_arg_head_22 : ActionArgHead.t :=
  {| ActionArgHead.W_k := ones_Linear 2 2; ActionArgHead.W_q := ones_Linear 3 2 |}.

(** The instance the small framework builds in the completed scope for the
    argument groups 'play_card' and 'end_round'. *)
Definition toy_built_self : GenshinVAC.t :=
  {| GenshinVAC.obs_embedding_shape := SInt 2;
     GenshinVAC.action_shape := SInt 3;
     GenshinVAC.critic_head :=
       match RegressionHead toy_framework 64 1 1 () None with
       | Ok h => h
       | Raise e => λ _, Raise e
       end;
     GenshinVAC.actor_action_type := linear_head "logit" (ones_Linear 2 3);
     GenshinVAC.actor_action_args := {[ "play_card" := toy_arg_head_22 ]} |}.

(** A framework whose regression head is that of [ding], with all weights
    one and no normalisation layer in use. *)
Definition toy_weights : nat → list (list Z) * list Z :=
  λ _, (replicate 64 (replicate 64 1%Z), replicate 64 0%Z).

Definition toy_norms : string → nat → Tensor → result Tensor := λ _ _ t, Ok t.

Definition ding_toy_framework : Framework :=
  {| Rng := nat;
     categorical := categorical toy_framework;
     Activation := option (Z → Z);
     ding_squeeze := ding_squeeze toy_framework;
     RegressionHead := ding_RegressionHead toy_weights toy_norms;
     DiscreteHead := λ hidden out _ _ _,
       n ← as_int hidden; Ok (linear_head "logit" (ones_Linear n out));
     nn_Linear := nn_Linear toy_framework |}.



(** The completed scope with, in addition, the name of lines 119 and 157
    bound to a dictionary that holds the pair of strings as a key, so that
    the assertion passes. *)
Definition passing_globals : gmap string GlobalVal :=
  <["sample_action_typein" := GDictTupleInt {[ ["argmax"; "normal"] := 1%Z ]}]>
  completed_globals.

(** * Properties *)

(** ** Shapes through the framework primitives *)

Lemma bind_Ok {A B} (m : result A) (f : A → result B) (b : B) :
  m ≫= f = Ok b → ∃ a, m = Ok a ∧ f a = Ok b.
Proof. destruct m as [a|e]; simpl; [eauto | discriminate]. Qed.

Lemma Linear_forward_shape L x y :
  Linear_forward L x = Ok y →
  ∃ k lead, rev (shape x) = k :: lead ∧ k = in_features L
            ∧ shape y = rev lead ++ [out_features L].
Proof.
  unfold Linear_forward. destruct (rev (shape x)) as [|k lead]; [discriminate|].
  case_decide; [|discriminate]. intros [= <-]. by exists k, lead.
Qed.

Lemma Linear_forward_raises L x e :
  Linear_forward L x = Raise e → ∃ msg, e = RuntimeError msg.
Proof.
  unfold Linear_forward. destruct (rev (shape x)) as [|k lead].
  - intros [= <-]. eauto.
  - case_decide; [discriminate|]. intros [= <-]. eauto.
Qed.

Lemma Linear_forward_matching L x k lead :
  rev (shape x) = k :: lead → k = in_features L →
  ∃ y, Linear_forward L x = Ok y ∧ shape y = rev lead ++ [out_features L].
Proof.
  intros Hsh Hk. unfold Linear_forward. rewrite Hsh.
  rewrite decide_True by done. eauto.
Qed.

Lemma broadcast_rev_length a b r :
  broadcast_rev a b = Some r → length r = Nat.max (length a) (length b).
Proof.
  revert b r. induction a as [|x a IH]; intros [|y b] r; simpl.
  - by intros [= <-].
  - by intros [= <-].
  - by intros [= <-].
  - destruct (broadcast_rev a b) as [r'|] eqn:E; [|discriminate].
    apply IH in E.
    repeat case_decide; intros [= <-]; simpl; lia.
Qed.

Lemma broadcast_rev_diag a : broadcast_rev a a = Some a.
Proof.
  induction a as [|x a IH]; simpl; [done|].
  rewrite IH. by rewrite decide_True.
Qed.

Lemma broadcast_shapes_diag a : broadcast_shapes a a = Some a.
Proof.
  unfold broadcast_shapes. rewrite broadcast_rev_diag. simpl.
  by rewrite rev_involutive.
Qed.

Lemma add_ndim a b c :
  add a b = Ok c → ndim c = Nat.max (ndim a) (ndim b).
Proof.
  unfold add, broadcast_shapes.
  destruct (broadcast_rev (rev (shape a)) (rev (shape b))) as [r|] eqn:E;
    simpl; [|discriminate].
  intros [= <-]. unfold ndim; simpl.
  apply broadcast_rev_length in E. by rewrite !length_rev in *.
Qed.

Lemma add_raises a b e : add a b = Raise e → ∃ msg, e = RuntimeError msg.
Proof.
  unfold add. destruct (broadcast_shapes _ _); [discriminate|].
  intros [= <-]. eauto.
Qed.

Lemma add_same_shape a b :
  shape a = shape b → ∃ c, add a b = Ok c ∧ shape c = shape a.
Proof.
  intros E. unfold add. rewrite <- E, broadcast_shapes_diag. eauto.
Qed.

Lemma unsqueeze_ndim t dim u : unsqueeze t dim = Ok u → ndim u = S (ndim t).
Proof.
  unfold unsqueeze. case_decide; [|discriminate]. intros [= <-].
  unfold ndim in *; simpl.
  rewrite length_app; simpl. rewrite length_take, length_drop. lia.
Qed.

Lemma unsqueeze_in_range t dim : dim ≤ ndim t → ∃ u, unsqueeze t dim = Ok u.
Proof. intros H. unfold unsqueeze. rewrite decide_True by done. eauto. Qed.

Lemma mm_self_not_matrix a b :
  ndim a ≠ 2 → mm a b = Raise (RuntimeError "self must be a matrix").
Proof.
  unfold mm, ndim. destruct (shape a) as [|n [|m [|p sh]]]; simpl; try done.
Qed.

(** On a batch, the query handed to [torch.mm] has three dimensions. *)
Lemma forward_query_is_3d obs B H q query query' :
  shape obs = [B; H] → ndim q = 2 →
  add q obs = Ok query → unsqueeze query 1 = Ok query' → ndim query' = 3.
Proof.
  intros Hobs Hq Hadd Hun.
  apply add_ndim in Hadd. apply unsqueeze_ndim in Hun.
  unfold ndim in *. rewrite Hobs in Hadd. simpl in Hadd. lia.
Qed.

(** ** [ActionArgHead.forward] on a batch *)

(** C1.  For an observation embedding of shape (B, H), an action-type logit
    of shape (B, T) and an encoded sub-observation of shape (B, A, F),
    [ActionArgHead.forward] returns no tensor at all: the query has shape
    (B, 1, H) when it reaches [torch.mm], which accepts matrices only, so
    the call raises a [RuntimeError] whatever the layers are.  The (B, A)
    logit announced by the comments of lines 42-43 is never produced. *)
Theorem ActionArgHead_forward_batch_raises
    (self : ActionArgHead.t) (obs_embedding action_type_logit encoded_part_obs : Tensor)
    (B H T A F : nat) :
  shape obs_embedding = [B; H] →
  shape action_type_logit = [B; T] →
  shape encoded_part_obs = [B; A; F] →
  raises_RuntimeError
    (ActionArgHead.forward self obs_embedding action_type_logit encoded_part_obs).
Proof.
  intros Hobs Hlogit Henc. unfold ActionArgHead.forward, raises_RuntimeError.
  destruct (Linear_forward (ActionArgHead.W_k self) encoded_part_obs) as [key|e] eqn:Ek;
    simpl; [|apply Linear_forward_raises in Ek as [msg ->]; eauto].
  destruct (Linear_forward (ActionArgHead.W_q self) action_type_logit) as [q|e] eqn:Eq;
    simpl; [|apply Linear_forward_raises in Eq as [msg ->]; eauto].
  destruct (add q obs_embedding) as [query|e] eqn:Ea;
    simpl; [|apply add_raises in Ea as [msg ->]; eauto].
  assert (ndim q = 2) as Hq.
  { apply Linear_forward_shape in Eq as (k & lead & Hrev & _ & Hs).
    rewrite Hlogit in Hrev. simpl in Hrev. injection Hrev as <- <-.
    unfold ndim. by rewrite Hs. }
  assert (ndim query = 2) as Hquery.
  { apply add_ndim in Ea. unfold ndim in *. rewrite Hobs in Ea. simpl in Ea. lia. }
  destruct (unsqueeze_in_range query 1) as [query' Eu]; [lia|].
  rewrite Eu; simpl.
  rewrite mm_self_not_matrix; [simpl; eauto|].
  rewrite (forward_query_is_3d obs_embedding B H q query query'); auto.
Qed.

Lemma ActionArgHead_forward_batch_raises_witness :
  raises_RuntimeError
    (ActionArgHead.forward toy_arg_head toy_obs toy_logit toy_part_obs).
Proof.
  apply (ActionArgHead_forward_batch_raises toy_arg_head toy_obs toy_logit toy_part_obs
           1 2 3 2 2); reflexivity.
Defined.

(** C5.  On inputs of the documented shapes, with layers of matching widths,
    the dot-product logit of the specification exists and has shape (B, A),
    but [ActionArgHead.forward] does not compute it: the call raises before
    any logit is returned. *)
Theorem ActionArgHead_forward_not_dot_product
    (self : ActionArgHead.t) (obs_embedding action_type_logit encoded_part_obs : Tensor)
    (B H T A F : nat) :
  shape obs_embedding = [B; H] →
  shape action_type_logit = [B; T] →
  shape encoded_part_obs = [B; A; F] →
  in_features (ActionArgHead.W_k self) = F →
  out_features (ActionArgHead.W_k self) = H →
  in_features (ActionArgHead.W_q self) = T →
  out_features (ActionArgHead.W_q self) = H →
  (∃ logit, spec_dot_product_logit self obs_embedding action_type_logit encoded_part_obs
            = Ok logit ∧ shape logit = [B; A])
  ∧ ActionArgHead.forward self obs_embedding action_type_logit encoded_part_obs
    ≠ spec_dot_product_logit self obs_embedding action_type_logit encoded_part_obs.
Proof.
  intros Hobs Hlogit Henc HkF HkH HqT HqH.
  assert (∃ logit, spec_dot_product_logit self obs_embedding action_type_logit
                     encoded_part_obs = Ok logit ∧ shape logit = [B; A]) as Hspec.
  { unfold spec_dot_product_logit.
    destruct (Linear_forward_matching (ActionArgHead.W_k self) encoded_part_obs F [A; B])
      as (key & -> & Hkey); [by rewrite Henc | done |].
    destruct (Linear_forward_matching (ActionArgHead.W_q self) action_type_logit T [B])
      as (q & -> & Hq); [by rewrite Hlogit | done |].
    simpl in *. rewrite HkH in Hkey. rewrite HqH in Hq.
    destruct (add_same_shape q obs_embedding) as (query & -> & Hquery); [congruence|].
    simpl. rewrite Hkey, Hquery, Hq.
    rewrite decide_True by done. eauto. }
  split; [exact Hspec|].
  destruct Hspec as (logit & -> & _).
  destruct (ActionArgHead_forward_batch_raises self obs_embedding action_type_logit
              encoded_part_obs B H T A F Hobs Hlogit Henc) as [msg ->].
  discriminate.
Qed.

Lemma ActionArgHead_forward_not_dot_product_witness :
  (∃ logit, spec_dot_product_logit toy_arg_head toy_obs toy_logit toy_part_obs = Ok logit
            ∧ shape logit = [1; 2])
  ∧ ActionArgHead.forward toy_arg_head toy_obs toy_logit toy_part_obs
    ≠ spec_dot_product_logit toy_arg_head toy_obs toy_logit toy_part_obs.
Proof.
  apply (ActionArgHead_forward_not_dot_product toy_arg_head toy_obs toy_logit toy_part_obs
           1 2 3 2 2); reflexivity.
Defined.

(** The two results side by side on the small instance. *)
Example toy_forward_vs_spec :
  ActionArgHead.forward toy_arg_head toy_obs toy_logit toy_part_obs
  = Raise (RuntimeError "self must be a matrix")
  ∧ spec_dot_product_logit toy_arg_head toy_obs toy_logit toy_part_obs
    = Ok {| shape := [1; 2]; data := [11; 77]%Z |}.
Proof. split; reflexivity. Qed.

(** Without a batch dimension and with a hidden size of one the matrix
    product is well formed and [forward] does return. *)
Example unbatched_forward_returns :
  ActionArgHead.forward
    {| ActionArgHead.W_k := ones_Linear 2 1; ActionArgHead.W_q := ones_Linear 3 1 |}
    {| shape := [1]; data := [5]%Z |}
    {| shape := [3]; data := [1; 0; 0]%Z |}
    {| shape := [2; 2]; data := [1; 2; 3; 4]%Z |}
  = Ok {| shape := [1; 2]; data := [18; 42]%Z |}.
Proof. reflexivity. Qed.

(** ** Name resolution in the methods of [GenshinVAC] *)

Lemma load_global_unbound G name :
  G !! name = None → load_global G name = Raise (NameError name).
Proof. intros H. unfold load_global. by rewrite H. Qed.

Lemma load_global_bound G name v :
  G !! name = Some v → load_global G name = Ok v.
Proof. intros H. unfold load_global. by rewrite H. Qed.

(** The four names the class uses bare are bound neither at module level
    nor in the builtins. *)
Lemma sample_action_typein_unbound : module_globals !! "sample_action_typein" = None.
Proof. vm_compute. reflexivity. Qed.

Lemma action_type_names_unbound : module_globals !! "action_type_names" = None.
Proof. vm_compute. reflexivity. Qed.

Lemma action_obs_name_map_unbound : module_globals !! "action_obs_name_map" = None.
Proof. vm_compute. reflexivity. Qed.

Lemma actor_head_layer_num_unbound : module_globals !! "actor_head_layer_num" = None.
Proof. vm_compute. reflexivity. Qed.

Section UnboundAssertionName.
(** Any global scope in which the name of lines 119 and 157 is unbound. *)
Variable G : gmap string GlobalVal.
Hypothesis HG : G !! "sample_action_typein" = None.

Lemma check_sample_action_type_unbound :
  GenshinVAC.check_sample_action_type G = Raise (NameError "sample_action_typein").
Proof.
  unfold GenshinVAC.check_sample_action_type.
  by rewrite (load_global_unbound _ _ HG).
Qed.

Lemma actor_body_unbound F self obs enc s g :
  GenshinVAC.actor_body F G self obs enc s g
  = Raise (NameError "sample_action_typein").
Proof.
  unfold GenshinVAC.actor_body. by rewrite check_sample_action_type_unbound.
Qed.

Lemma compute_actor_unbound F self obs enc s g :
  GenshinVAC.compute_actor F G self obs enc s g
  = Raise (NameError "sample_action_typein").
Proof. unfold GenshinVAC.compute_actor. by rewrite actor_body_unbound. Qed.

(** [compute_actor_critic] evaluates the critic first (line 155); whatever
    that gives, no dictionary is returned. *)
Lemma compute_actor_critic_unbound F self obs enc s g :
  GenshinVAC.compute_actor_critic F G self obs enc s g
  = (x ← GenshinVAC.critic_head self (InTensor obs);
     _ ← dict_getitem x "pred";
     Raise (NameError "sample_action_typein")).
Proof.
  unfold GenshinVAC.compute_actor_critic.
  destruct (GenshinVAC.critic_head self (InTensor obs)) as [x|e]; simpl; [|done].
  destruct (dict_getitem x "pred") as [v|e]; simpl; [|done].
  by rewrite actor_body_unbound.
Qed.
End UnboundAssertionName.

Lemma compute_actor_raises F self obs enc s g :
  GenshinVAC.compute_actor F module_globals self obs enc s g
  = Raise (NameError "sample_action_typein").
Proof. apply compute_actor_unbound, sample_action_typein_unbound. Qed.

Lemma compute_actor_critic_outcome F self obs enc s g :
  GenshinVAC.compute_actor_critic F module_globals self obs enc s g
  = (x ← GenshinVAC.critic_head self (InTensor obs);
     _ ← dict_getitem x "pred";
     Raise (NameError "sample_action_typein")).
Proof. apply compute_actor_critic_unbound, sample_action_typein_unbound. Qed.

Lemma compute_actor_critic_never_returns F self obs enc s g :
  ¬ returns (GenshinVAC.compute_actor_critic F module_globals self obs enc s g).
Proof.
  rewrite compute_actor_critic_outcome. intros [out H].
  destruct (GenshinVAC.critic_head self (InTensor obs)) as [x|e]; simpl in H; [|done].
  destruct (dict_getitem x "pred") as [v|e]; simpl in H; done.
Qed.

Lemma compute_actor_critic_after_critic F self obs enc s g v :
  GenshinVAC.compute_critic self (InTensor obs) = Ok v →
  GenshinVAC.compute_actor_critic F module_globals self obs enc s g
  = Raise (NameError "sample_action_typein").
Proof.
  rewrite compute_actor_critic_outcome. unfold GenshinVAC.compute_critic.
  destruct (GenshinVAC.critic_head self (InTensor obs)) as [x|e]; simpl; [|done].
  destruct (dict_getitem x "pred") as [p|e]; simpl; done.
Qed.

(** Whatever the global scope, [compute_actor_critic] is the critic followed
    by the actor, their dictionaries merged. *)
Lemma compute_actor_critic_decompose F G self obs enc s g :
  GenshinVAC.compute_actor_critic F G self obs enc s g
  = (x ← GenshinVAC.critic_head self (InTensor obs);
     value ← dict_getitem x "pred";
     '(a, g') ← GenshinVAC.compute_actor F G self obs enc s g;
     match a with
     | PDict items => Ok (PDict (items ++ [("value", PTensor value)]), g')
     | _ => Ok (a, g')
     end).
Proof.
  unfold GenshinVAC.compute_actor_critic, GenshinVAC.compute_actor.
  destruct (GenshinVAC.critic_head self (InTensor obs)) as [x|e]; simpl; [|done].
  destruct (dict_getitem x "pred") as [v|e]; simpl; [|done].
  destruct (GenshinVAC.actor_body F G self obs enc s g) as [[[a b] g']|e]; done.
Qed.

(** ** The argument heads built by [__init__] *)

Lemma add_arg_head_fold_raise F G space enc_shape obs_shape names e :
  foldl (GenshinVAC.add_arg_head F G space enc_shape obs_shape) (Raise e) names
  = Raise e.
Proof. induction names as [|n names IH]; simpl; done. Qed.

Lemma new_arg_head_unbound F G space enc_shape obs_shape name :
  G !! "action_obs_name_map" = None →
  GenshinVAC.new_arg_head F G space enc_shape obs_shape name
  = Raise (NameError "action_obs_name_map").
Proof.
  intros HG. unfold GenshinVAC.new_arg_head.
  by rewrite (load_global_unbound _ _ HG).
Qed.

Lemma build_actor_action_args_unbound F G space enc_shape obs_shape :
  G !! "action_obs_name_map" = None →
  (Forall (λ n, n ∈ ["elemental_harmony"; "end_round"]) (action_arg_space space) →
   GenshinVAC.build_actor_action_args F G space enc_shape obs_shape = Ok ∅)
  ∧ (Exists (λ n, n ∉ ["elemental_harmony"; "end_round"]) (action_arg_space space) →
     GenshinVAC.build_actor_action_args F G space enc_shape obs_shape
     = Raise (NameError "action_obs_name_map")).
Proof.
  intros HG. unfold GenshinVAC.build_actor_action_args.
  generalize (∅ : gmap string ActionArgHead.t) as d.
  induction (action_arg_space space) as [|n names IH]; intros d.
  - split; [done|]. intros H. by apply Exists_nil in H.
  - cbn [foldl]. unfold GenshinVAC.add_arg_head at 2 4. cbn [mbind result_bind].
    case_decide as Hn.
    + split.
      * intros H. apply Forall_cons in H as [_ H]. by apply IH.
      * intros H. apply Exists_cons in H as [H|H]; [done|]. by apply IH.
    + rewrite (new_arg_head_unbound _ _ _ _ _ _ HG). cbn [mbind result_bind].
      rewrite add_arg_head_fold_raise. split; [|done].
      intros H. by apply Forall_cons in H as [H _].
Qed.

(** In any global scope: when the comprehension does return a mapping, the
    two excluded names have no entry in it and every other name of the
    action-argument space has one. *)
Lemma add_arg_head_fold_returns F G space enc_shape obs_shape names acc d' :
  foldl (GenshinVAC.add_arg_head F G space enc_shape obs_shape) acc names = Ok d' →
  ∃ d, acc = Ok d
       ∧ (∀ name, name ∈ ["elemental_harmony"; "end_round"] →
                  d !! name = None → d' !! name = None)
       ∧ (∀ name, is_Some (d !! name) → is_Some (d' !! name))
       ∧ (∀ name, name ∈ names → name ∉ ["elemental_harmony"; "end_round"] →
                  is_Some (d' !! name)).
Proof.
  revert acc. induction names as [|n names IH]; intros acc; cbn [foldl].
  - intros ->. exists d'. split; [done|]. split; [done|]. split; [done|].
    intros name H. by apply elem_of_nil in H.
  - intros H. apply IH in H as (d1 & Hstep & Hex & Hkeep & Hnew).
    unfold GenshinVAC.add_arg_head in Hstep.
    destruct acc as [d|e]; cbn [mbind result_bind] in Hstep; [|done].
    exists d. split; [done|].
    case_decide as Hn.
    + injection Hstep as <-. split; [done|]. split; [done|].
      intros name Hin Hnot. apply elem_of_cons in Hin as [->|Hin]; [done|].
      by apply Hnew.
    + destruct (GenshinVAC.new_arg_head F G space enc_shape obs_shape n) as [head|e];
        cbn [mbind result_bind] in Hstep; [|done].
      injection Hstep as <-. split; [|split].
      * intros name Hname Hd. apply Hex; [done|].
        rewrite lookup_insert_ne; [done|]. by intros ->.
      * intros name Hd. apply Hkeep.
        destruct (decide (n = name)) as [->|Hne].
        -- rewrite lookup_insert_eq. eauto.
        -- by rewrite lookup_insert_ne.
      * intros name Hin Hnot. apply elem_of_cons in Hin as [->|Hin].
        -- apply Hkeep. rewrite lookup_insert_eq. eauto.
        -- by apply Hnew.
Qed.

Lemma build_actor_action_args_returns F G space enc_shape obs_shape d :
  GenshinVAC.build_actor_action_args F G space enc_shape obs_shape = Ok d →
  (∀ name, name ∈ ["elemental_harmony"; "end_round"] → d !! name = None)
  ∧ (∀ name, name ∈ action_arg_space space →
             name ∉ ["elemental_harmony"; "end_round"] → is_Some (d !! name)).
Proof.
  unfold GenshinVAC.build_actor_action_args. intros H.
  apply add_arg_head_fold_returns in H as (d0 & [= <-] & Hex & _ & Hnew).
  split; [|done]. intros name Hname. by apply Hex.
Qed.

Lemma init_unbound_layer_num F G obs_shape act_shape space enc_shape hidden layers act norm :
  G !! "actor_head_layer_num" = None →
  GenshinVAC.__init__ F G obs_shape act_shape space enc_shape hidden layers act norm
  = (_ ← RegressionHead F hidden 1 layers act norm;
     Raise (NameError "actor_head_layer_num")).
Proof.
  intros HG. unfold GenshinVAC.__init__.
  destruct (RegressionHead F hidden 1 layers act norm) as [h|e]; simpl; [|done].
  by rewrite (load_global_unbound _ _ HG).
Qed.

Lemma init_never_returns F obs_shape act_shape space enc_shape hidden layers act norm :
  ¬ returns (GenshinVAC.__init__ F module_globals obs_shape act_shape space enc_shape
               hidden layers act norm).
Proof.
  rewrite (init_unbound_layer_num _ _ _ _ _ _ _ _ _ _ actor_head_layer_num_unbound).
  intros [self H].
  destruct (RegressionHead F hidden 1 layers act norm) as [h|e]; simpl in H; done.
Qed.

Lemma init_second_unbound_name F obs_shape act_shape space enc_shape hidden layers act norm
    (n : Z) h1 h2 :
  RegressionHead F hidden 1 layers act norm = Ok h1 →
  DiscreteHead F (ding_squeeze F obs_shape) (action_type_space_n space) (GInt n) act norm
  = Ok h2 →
  Exists (λ name, name ∉ ["elemental_harmony"; "end_round"]) (action_arg_space space) →
  GenshinVAC.__init__ F (<["actor_head_layer_num" := GInt n]> module_globals)
    obs_shape act_shape space enc_shape hidden layers act norm
  = Raise (NameError "action_obs_name_map").
Proof.
  intros H1 H2 Hex. unfold GenshinVAC.__init__. rewrite H1. cbn [mbind result_bind].
  rewrite (load_global_bound _ _ (GInt n)) by apply lookup_insert_eq.
  cbn [mbind result_bind]. rewrite H2. cbn [mbind result_bind].
  destruct (build_actor_action_args_unbound F
              (<["actor_head_layer_num" := GInt n]> module_globals)
              space enc_shape (ding_squeeze F obs_shape)) as [_ Hr].
  { rewrite lookup_insert_ne by done. apply action_obs_name_map_unbound. }
  by rewrite (Hr Hex).
Qed.

(** ** The selection block *)

Lemma action_args_logit_of_unbound G self obs enc logit action_type :
  G !! "action_type_names" = None →
  GenshinVAC.action_args_logit_of G self obs enc logit action_type
  = Raise (NameError "action_type_names").
Proof.
  intros HG. unfold GenshinVAC.action_args_logit_of.
  by rewrite (load_global_unbound _ _ HG).
Qed.

Lemma select_action_normal_unbound F G self obs enc logit g :
  G !! "action_type_names" = None →
  returns (GenshinVAC.multinomial_item F g logit) →
  GenshinVAC.select_action F G self obs enc "normal" logit g
  = Raise (NameError "action_type_names").
Proof.
  intros HG [[a g'] Hdraw]. unfold GenshinVAC.select_action.
  rewrite decide_True by done. rewrite Hdraw. cbn [mbind result_bind].
  by rewrite (action_args_logit_of_unbound _ _ _ _ _ _ HG).
Qed.

Lemma select_action_argmax_unbound F G self obs enc logit g :
  G !! "action_type_names" = None →
  returns (GenshinVAC.argmax_item logit) →
  GenshinVAC.select_action F G self obs enc "argmax" logit g
  = Raise (NameError "action_type_names").
Proof.
  intros HG [a Hdraw]. unfold GenshinVAC.select_action.
  rewrite decide_False by done. rewrite decide_True by done.
  rewrite Hdraw. cbn [mbind result_bind].
  by rewrite (action_args_logit_of_unbound _ _ _ _ _ _ HG).
Qed.

(** ** [GenshinVAC.forward] *)

Lemma getattr_method_name name m :
  GenshinVAC.getattr name = Ok m → GenshinVAC.method_name m = name.
Proof.
  unfold GenshinVAC.getattr. repeat case_decide; intros [= <-]; by subst.
Qed.

(** What the call with one positional argument does in each mode. *)
Lemma forward_call_outcomes self inputs :
  GenshinVAC.forward self inputs "compute_critic" = GenshinVAC.compute_critic self inputs
  ∧ GenshinVAC.forward self inputs "compute_actor"
    = Raise (TypeError "compute_actor() missing 1 required positional argument: 'encoded_obs'")
  ∧ GenshinVAC.forward self inputs "compute_actor_critic"
    = Raise (TypeError
        "compute_actor_critic() missing 1 required positional argument: 'encoded_obs'").
Proof. split; [|split]; reflexivity. Qed.



(** ** [compute_critic] *)












(** ** [compute_actor] and [compute_actor_critic] *)

(** C2.  Where [compute_critic] returns its value, [compute_actor_critic]
    on the same inputs returns nothing: it raises [NameError] at line 157,
    after the critic has been evaluated, and [compute_actor] raises the same
    error at line 119.  No dictionary with the critic's ['value'] and the
    actor's choice is produced. *)
Theorem compute_actor_critic_returns_no_value
    (F : Framework) (self : GenshinVAC.t) (obs_embedding : Tensor)
    (encoded_obs : gmap string Tensor) (sample_action_type : string) (g : Rng F)
    (v : PyVal) :
  GenshinVAC.compute_critic self (InTensor obs_embedding) = Ok v →
  GenshinVAC.compute_actor_critic F module_globals self obs_embedding encoded_obs
    sample_action_type g = Raise (NameError "sample_action_typein")
  ∧ GenshinVAC.compute_actor F module_globals self obs_embedding encoded_obs
      sample_action_type g = Raise (NameError "sample_action_typein").
Proof.
  intros Hc. split.
  - by apply compute_actor_critic_after_critic with v.
  - apply compute_actor_raises.
Qed.

Lemma compute_actor_critic_returns_no_value_witness :
  GenshinVAC.compute_actor_critic toy_framework module_globals toy_self toy_obs
    toy_encoded_obs "argmax" 0 = Raise (NameError "sample_action_typein")
  ∧ GenshinVAC.compute_actor toy_framework module_globals toy_self toy_obs
      toy_encoded_obs "argmax" 0 = Raise (NameError "sample_action_typein").
Proof.
  apply (compute_actor_critic_returns_no_value toy_framework toy_self toy_obs
           toy_encoded_obs "argmax" 0
           (PDict [("value", PTensor {| shape := [1; 1]; data := [3%Z] |})])).
  vm_compute. reflexivity.
Defined.

(** C3.  With a [sample_action_type] other than 'argmax' and 'normal',
    [compute_actor] does not raise the [AssertionError] of its assertion: it
    raises [NameError] for the name [sample_action_typein], and so does
    [compute_actor_critic] once the critic has been evaluated. *)
Theorem invalid_sample_action_type_raises_NameError
    (F : Framework) (self : GenshinVAC.t) (obs_embedding : Tensor)
    (encoded_obs : gmap string Tensor) (sample_action_type : string) (g : Rng F) :
  sample_action_type ∉ ["argmax"; "normal"] →
  GenshinVAC.compute_actor F module_globals self obs_embedding encoded_obs
    sample_action_type g = Raise (NameError "sample_action_typein")
  ∧ (∀ msg, GenshinVAC.compute_actor F module_globals self obs_embedding encoded_obs
              sample_action_type g ≠ Raise (AssertionError msg))
  ∧ (returns (GenshinVAC.compute_critic self (InTensor obs_embedding)) →
     GenshinVAC.compute_actor_critic F module_globals self obs_embedding encoded_obs
       sample_action_type g = Raise (NameError "sample_action_typein")).
Proof.
  intros _. split; [|split].
  - apply compute_actor_raises.
  - intros msg. by rewrite compute_actor_raises.
  - intros [v Hv]. by apply compute_actor_critic_after_critic with v.
Qed.

Lemma invalid_sample_action_type_raises_NameError_witness :
  GenshinVAC.compute_actor toy_framework module_globals toy_self toy_obs
    toy_encoded_obs "greedy" 0 = Raise (NameError "sample_action_typein")
  ∧ (∀ msg, GenshinVAC.compute_actor toy_framework module_globals toy_self toy_obs
              toy_encoded_obs "greedy" 0 ≠ Raise (AssertionError msg))
  ∧ (returns (GenshinVAC.compute_critic toy_self (InTensor toy_obs)) →
     GenshinVAC.compute_actor_critic toy_framework module_globals toy_self toy_obs
       toy_encoded_obs "greedy" 0 = Raise (NameError "sample_action_typein")).
Proof.
  apply (invalid_sample_action_type_raises_NameError toy_framework toy_self toy_obs
           toy_encoded_obs "greedy" 0).
  compute_done.
Defined.

(** C7.  With [sample_action_type = 'argmax'], [compute_actor] selects
    nothing: every call raises [NameError] at line 119 and returns neither
    an action type nor an argument index. *)
Theorem compute_actor_argmax_selects_nothing
    (F : Framework) (self : GenshinVAC.t) (obs_embedding : Tensor)
    (encoded_obs : gmap string Tensor) (g : Rng F) :
  GenshinVAC.compute_actor F module_globals self obs_embedding encoded_obs "argmax" g
  = Raise (NameError "sample_action_typein").
Proof. apply compute_actor_raises. Qed.

Lemma compute_actor_argmax_selects_nothing_witness :
  GenshinVAC.compute_actor toy_framework module_globals toy_self toy_obs toy_encoded_obs
    "argmax" 0 = Raise (NameError "sample_action_typein").
Proof.
  exact (compute_actor_argmax_selects_nothing toy_framework toy_self toy_obs
           toy_encoded_obs 0).
Defined.

(** C10.  Neither actor method returns its dictionary.  Every call of
    [compute_actor] raises a [NameError]; [compute_actor_critic] never
    returns, and raises a [NameError] once the critic has been evaluated.
    The selection block itself, entered with 'normal' or 'argmax', raises
    [NameError] for the bare name [action_type_names] as soon as the action
    type has been drawn. *)
Theorem actor_methods_raise_NameError
    (F : Framework) (self : GenshinVAC.t) (obs_embedding : Tensor)
    (encoded_obs : gmap string Tensor) (sample_action_type : string)
    (action_type_logit : Tensor) (g : Rng F) :
  raises_NameError (GenshinVAC.compute_actor F module_globals self obs_embedding
                      encoded_obs sample_action_type g)
  ∧ ¬ returns (GenshinVAC.compute_actor_critic F module_globals self obs_embedding
                 encoded_obs sample_action_type g)
  ∧ (returns (GenshinVAC.compute_critic self (InTensor obs_embedding)) →
     raises_NameError (GenshinVAC.compute_actor_critic F module_globals self
                         obs_embedding encoded_obs sample_action_type g))
  ∧ (returns (GenshinVAC.multinomial_item F g action_type_logit) →
     GenshinVAC.select_action F module_globals self obs_embedding encoded_obs
       "normal" action_type_logit g = Raise (NameError "action_type_names"))
  ∧ (returns (GenshinVAC.argmax_item action_type_logit) →
     GenshinVAC.select_action F module_globals self obs_embedding encoded_obs
       "argmax" action_type_logit g = Raise (NameError "action_type_names")).
Proof.
  split; [|split; [|split; [|split]]].
  - eexists. apply compute_actor_raises.
  - apply compute_actor_critic_never_returns.
  - intros [v Hv]. eexists. by apply compute_actor_critic_after_critic with v.
  - apply select_action_normal_unbound, action_type_names_unbound.
  - apply select_action_argmax_unbound, action_type_names_unbound.
Qed.

Lemma actor_methods_raise_NameError_witness :
  returns (GenshinVAC.compute_critic toy_self (InTensor toy_obs))
  ∧ returns (GenshinVAC.multinomial_item toy_framework 0 toy_logit)
  ∧ returns (GenshinVAC.argmax_item toy_logit)
  ∧ raises_NameError (GenshinVAC.compute_actor_critic toy_framework module_globals
                        toy_self toy_obs toy_encoded_obs "normal" 0)
  ∧ GenshinVAC.select_action toy_framework module_globals toy_self toy_obs
      toy_encoded_obs "normal" toy_logit 0 = Raise (NameError "action_type_names")
  ∧ GenshinVAC.select_action toy_framework module_globals toy_self toy_obs
      toy_encoded_obs "argmax" toy_logit 0 = Raise (NameError "action_type_names").
Proof.
  assert (returns (GenshinVAC.compute_critic toy_self (InTensor toy_obs))) as H1.
  { eexists. vm_compute. reflexivity. }
  assert (returns (GenshinVAC.multinomial_item toy_framework 0 toy_logit)) as H2.
  { eexists. vm_compute. reflexivity. }
  assert (returns (GenshinVAC.argmax_item toy_logit)) as H3.
  { eexists. vm_compute. reflexivity. }
  destruct (actor_methods_raise_NameError toy_framework toy_self toy_obs toy_encoded_obs
              "normal" toy_logit 0) as (_ & _ & Hc & Hn & Ha).
  split; [exact H1|]. split; [exact H2|]. split; [exact H3|].
  split; [exact (Hc H1)|]. split; [exact (Hn H2)|exact (Ha H3)].
Defined.

(** ** [GenshinVAC.__init__] *)

(** C8.  For an action-argument space with a name other than
    'elemental_harmony' and 'end_round', the comprehension that builds
    [actor_action_args] raises [NameError] for [action_obs_name_map], and
    [__init__] returns no instance: that name gets no [ActionArgHead]. *)
Theorem no_argument_head_is_created
    (F : Framework) (obs_embedding_shape action_shape : ShapeArg)
    (action_space : ActionSpace) (encoded_obs_shape : gmap string nat)
    (critic_head_hidden_size critic_head_layer_num : nat)
    (activation : Activation F) (norm_type : option string) (action_name : string) :
  action_name ∈ action_arg_space action_space →
  action_name ∉ ["elemental_harmony"; "end_round"] →
  GenshinVAC.build_actor_action_args F module_globals action_space encoded_obs_shape
    (ding_squeeze F obs_embedding_shape) = Raise (NameError "action_obs_name_map")
  ∧ ¬ returns (GenshinVAC.__init__ F module_globals obs_embedding_shape action_shape
                 action_space encoded_obs_shape critic_head_hidden_size
                 critic_head_layer_num activation norm_type).
Proof.
  intros Hin Hnot. split; [|apply init_never_returns].
  apply build_actor_action_args_unbound; [apply action_obs_name_map_unbound|].
  apply Exists_exists. eauto.
Qed.

Lemma no_argument_head_is_created_witness :
  GenshinVAC.build_actor_action_args toy_framework module_globals
    (mkActionSpace 3 ["play_card"; "elemental_harmony"; "end_round"])
    {[ "card_obs" := 2 ]} (ding_squeeze toy_framework (SInt 2))
  = Raise (NameError "action_obs_name_map")
  ∧ ¬ returns (GenshinVAC.__init__ toy_framework module_globals (SInt 2) (SInt 3)
                 (mkActionSpace 3 ["play_card"; "elemental_harmony"; "end_round"])
                 {[ "card_obs" := 2 ]} 64 1 () None).
Proof.
  apply (no_argument_head_is_created toy_framework (SInt 2) (SInt 3)
           (mkActionSpace 3 ["play_card"; "elemental_harmony"; "end_round"])
           {[ "card_obs" := 2 ]} 64 1 () None "play_card"); compute_done.
Defined.

(** C9.  [__init__] never completes.  The names [actor_head_layer_num]
    (line 92) and [action_obs_name_map] (line 99) are unbound in the scope
    of the method.  Whenever the constructor of the critic head (line 79)
    returns, the construction of the action-type head raises [NameError] for
    [actor_head_layer_num]; when that constructor raises, [__init__] raises
    its exception instead. *)
Theorem init_raises_NameError
    (F : Framework) (obs_embedding_shape action_shape : ShapeArg)
    (action_space : ActionSpace) (encoded_obs_shape : gmap string nat)
    (critic_head_hidden_size critic_head_layer_num : nat)
    (activation : Activation F) (norm_type : option string) :
  load_global module_globals "actor_head_layer_num"
  = Raise (NameError "actor_head_layer_num")
  ∧ load_global module_globals "action_obs_name_map"
    = Raise (NameError "action_obs_name_map")
  ∧ ¬ returns (GenshinVAC.__init__ F module_globals obs_embedding_shape action_shape
                 action_space encoded_obs_shape critic_head_hidden_size
                 critic_head_layer_num activation norm_type)
  ∧ (returns (RegressionHead F critic_head_hidden_size 1 critic_head_layer_num
                activation norm_type) →
     GenshinVAC.__init__ F module_globals obs_embedding_shape action_shape
       action_space encoded_obs_shape critic_head_hidden_size
       critic_head_layer_num activation norm_type
     = Raise (NameError "actor_head_layer_num"))
  ∧ (∀ e, RegressionHead F critic_head_hidden_size 1 critic_head_layer_num
            activation norm_type = Raise e →
          GenshinVAC.__init__ F module_globals obs_embedding_shape action_shape
            action_space encoded_obs_shape critic_head_hidden_size
            critic_head_layer_num activation norm_type
          = Raise e).
Proof.
  split; [|split; [|split; [|split]]].
  - apply load_global_unbound, actor_head_layer_num_unbound.
  - apply load_global_unbound, action_obs_name_map_unbound.
  - apply init_never_returns.
  - intros [h Hh].
    rewrite (init_unbound_layer_num _ _ _ _ _ _ _ _ _ _ actor_head_layer_num_unbound).
    by rewrite Hh.
  - intros e He.
    rewrite (init_unbound_layer_num _ _ _ _ _ _ _ _ _ _ actor_head_layer_num_unbound).
    by rewrite He.
Qed.

Lemma init_raises_NameError_witness :
  returns (RegressionHead toy_framework 64 1 1 () None)
  ∧ GenshinVAC.__init__ toy_framework module_globals (SSeq [2]) (SInt 3)
      (mkActionSpace 3 ["play_card"; "use_skill"; "end_round"])
      {[ "card_obs" := 2; "skill_obs" := 2 ]} 64 1 () None
    = Raise (NameError "actor_head_layer_num").
Proof.
  assert (returns (RegressionHead toy_framework 64 1 1 () None)) as H.
  { eexists. reflexivity. }
  split; [exact H|].
  exact (proj1 (proj2 (proj2 (proj2
    (init_raises_NameError toy_framework (SSeq [2]) (SInt 3)
       (mkActionSpace 3 ["play_card"; "use_skill"; "end_round"])
       {[ "card_obs" := 2; "skill_obs" := 2 ]} 64 1 () None)))) H).
Defined.

(** The regression head of [ding] is built unless a block asks for a
    normalisation the library does not know. *)
Lemma ding_RegressionHead_returns weights norms hidden out layer_num act norm_type :
  returns (ding_RegressionHead weights norms hidden out layer_num act norm_type)
  ↔ layer_num = 0 ∨ norm_type = None
    ∨ ∃ nt, norm_type = Some nt ∧ nt ∈ supported_norms.
Proof.
  unfold ding_RegressionHead, returns.
  destruct layer_num as [|n]; [split; eauto|].
  destruct norm_type as [nt|]; [|split; eauto].
  case_decide as Hnt; cbn [mbind result_bind].
  - split; [|eauto]. intros _. right. right. by exists nt.
  - split; [intros [h H]; discriminate|].
    intros [H|[H|(nt' & [= <-] & H)]]; done.
Qed.

(** With an unknown normalisation the constructor of line 79 raises first,
    and [__init__] raises [NotImplementedError], not a [NameError]. *)
Lemma init_unknown_norm_raises_NotImplementedError :
  GenshinVAC.__init__ ding_toy_framework module_globals (SInt 2) (SInt 3)
    (mkActionSpace 3 ["play_card"; "end_round"]) {[ "card_obs" := 2 ]}
    64 1 (Some relu) (Some "nope")
  = Raise (NotImplementedError "not support indicated dim when creates nope")
  ∧ ¬ raises_NameError
        (GenshinVAC.__init__ ding_toy_framework module_globals (SInt 2) (SInt 3)
           (mkActionSpace 3 ["play_card"; "end_round"]) {[ "card_obs" := 2 ]}
           64 1 (Some relu) (Some "nope")).
Proof.
  assert (GenshinVAC.__init__ ding_toy_framework module_globals (SInt 2) (SInt 3)
            (mkActionSpace 3 ["play_card"; "end_round"]) {[ "card_obs" := 2 ]}
            64 1 (Some relu) (Some "nope")
          = Raise (NotImplementedError "not support indicated dim when creates nope"))
    as H by (vm_compute; reflexivity).
  split; [exact H|]. rewrite H. intros [name Hn]. discriminate.
Qed.

(** ** The same code in a scope that binds the bare names *)

(** With the names bound, [__init__] returns and the argument heads are
    those of the names that are not excluded. *)
Example init_in_completed_scope :
  match GenshinVAC.__init__ toy_framework completed_globals (SSeq [2]) (SInt 3)
          (mkActionSpace 3 ["play_card"; "use_skill"; "elemental_harmony"; "end_round"])
          {[ "card_obs" := 2; "skill_obs" := 2 ]} 64 1 () None with
  | Ok self =>
      map (λ name, bool_decide (is_Some (GenshinVAC.actor_action_args self !! name)))
          ["play_card"; "use_skill"; "elemental_harmony"; "end_round"]
      = [true; true; false; false]
  | Raise _ => False
  end.
Proof. vm_compute. reflexivity. Qed.

(** With the names bound, the 'argmax' selection gets as far as the
    argument head, whose [forward] raises on the batch. *)
Example select_action_in_completed_scope :
  GenshinVAC.select_action toy_framework completed_globals toy_self toy_obs
    toy_encoded_obs "argmax" toy_logit 0
  = Raise (RuntimeError "self must be a matrix").
Proof. vm_compute. reflexivity. Qed.

(** * Further properties of the code *)

(** ** When [ActionArgHead.forward] returns, and what *)

Lemma mm_returns a b c :
  mm a b = Ok c →
  ∃ n m p, shape a = [n; m] ∧ shape b = [m; p] ∧ shape c = [n; p]
           ∧ data c = flat_map
               (λ i, map (λ j, foldr Z.add 0%Z
                                 (map (λ k, (entry a (i * m + k) * entry b (k * p + j))%Z)
                                      (seq 0 m)))
                         (seq 0 p))
               (seq 0 n).
Proof.
  unfold mm.
  destruct (shape a) as [|n [|m [|? ?]]]; try discriminate;
    destruct (shape b) as [|m' [|p [|? ?]]]; try discriminate.
  case_decide as E; [|discriminate]. subst m'. intros [= <-].
  by exists n, m, p.
Qed.

Lemma squeeze_matrix t n p u :
  shape t = [n; p] → squeeze t 1 = Ok u →
  data u = data t ∧ shape u = if decide (p = 1) then [n] else [n; p].
Proof.
  intros Hs. unfold squeeze, ndim. rewrite Hs. simpl.
  intros [= <-]. repeat case_decide; simplify_eq; simpl; auto; try done.
Qed.

Lemma rev_eq_cons {A} (l : list A) x l' : rev l = x :: l' → l = rev l' ++ [x].
Proof. intros H. rewrite <- (rev_involutive l), H. done. Qed.

Lemma unsqueeze_1_shape t u :
  unsqueeze t 1 = Ok u →
  data u = data t ∧ ∃ d rest, shape t = d :: rest ∧ shape u = d :: 1 :: rest.
Proof.
  unfold unsqueeze, ndim. case_decide as H; [|discriminate]. intros [= <-]. simpl.
  split; [done|]. destruct (shape t) as [|d rest]; simpl in *; [lia|].
  by exists d, rest.
Qed.

Lemma forward_returns_inv self obs logit enc out :
  ActionArgHead.forward self obs logit enc = Ok out →
  ∃ key q query A Hq,
    Linear_forward (ActionArgHead.W_k self) enc = Ok key
    ∧ Linear_forward (ActionArgHead.W_q self) logit = Ok q
    ∧ add q obs = Ok query
    ∧ shape enc = [A; in_features (ActionArgHead.W_k self)]
    ∧ shape logit = [in_features (ActionArgHead.W_q self)]
    ∧ out_features (ActionArgHead.W_k self) = 1
    ∧ shape key = [A; 1] ∧ shape q = [out_features (ActionArgHead.W_q self)]
    ∧ shape query = [Hq]
    ∧ ∃ c, mm {| shape := [Hq; 1]; data := data query |} (T key) = Ok c
           ∧ squeeze c 1 = Ok out.
Proof.
  unfold ActionArgHead.forward. intros H.
  apply bind_Ok in H as (key & Hkey & H).
  apply bind_Ok in H as (q & Hq & H).
  apply bind_Ok in H as (query & Hadd & H).
  apply bind_Ok in H as (query' & Hun & H).
  apply bind_Ok in H as (c & Hmm & H).
  apply bind_Ok in H as (out' & Hsq & [= <-]).
  pose proof (mm_returns _ _ _ Hmm) as (n & m & p & Hq' & HT & Hc & _).
  apply unsqueeze_1_shape in Hun as (Hdata & d & rest & Hquery & Hquery').
  rewrite Hquery' in Hq'. injection Hq' as <- <- ->.
  pose proof (add_ndim _ _ _ Hadd) as Hnd.
  pose proof (Linear_forward_shape _ _ _ Hq) as (k & lead & Hrevl & Hk & Hqs).
  pose proof (Linear_forward_shape _ _ _ Hkey) as (k' & lead' & Hreve & Hk' & Hks).
  unfold ndim in Hnd. rewrite Hquery, Hqs in Hnd.
  rewrite length_app, length_rev in Hnd. simpl in Hnd.
  assert (lead = []) as ->.
  { destruct lead; [done|]. simpl in Hnd. lia. }
  simpl in Hqs.
  simpl in HT. apply rev_eq_cons in HT. rewrite Hks in HT. simpl in HT.
  change [p; 1] with ([p] ++ [1]) in HT.
  apply app_inj_tail in HT as [Hlead Hout]. apply (f_equal (@rev nat)) in Hlead.
  rewrite rev_involutive in Hlead. simpl in Hlead. subst lead'.
  apply rev_eq_cons in Hreve, Hrevl. simpl in Hreve, Hrevl. subst k k'.
  exists key, q, query, p, d. rewrite Hks, Hout. simpl.
  repeat (split; [done|]).
  exists c. split; [|done].
  destruct query' as [sh dt]. simpl in *. by subst.
Qed.

Lemma add_returns a b c :
  add a b = Ok c →
  broadcast_shapes (shape a) (shape b) = Some (shape c)
  ∧ data c = map (λ j, let idx := unravel (shape c) j in
                       (entry a (src_index (shape a) (shape c) idx)
                        + entry b (src_index (shape b) (shape c) idx))%Z)
                 (seq 0 (numel (shape c))).
Proof.
  unfold add. destruct (broadcast_shapes (shape a) (shape b)) as [sh|]; [|discriminate].
  intros [= <-]. done.
Qed.

Lemma entry_map_seq (f : nat → Z) n sh j :
  j < n → entry {| shape := sh; data := map f (seq 0 n) |} j = f j.
Proof.
  intros Hj. unfold entry. simpl.
  rewrite (nth_indep _ 0%Z (f 0)) by (by rewrite length_map, length_seq).
  rewrite (map_nth f). by rewrite seq_nth.
Qed.

(** The reversal of a column is the same data read as a row. *)
Lemma T_column key A j :
  shape key = [A; 1] → j < A → entry (T key) j = entry key j.
Proof.
  intros Hs Hj. unfold T. rewrite Hs.
  change (rev [A; 1]) with [1; A].
  rewrite entry_map_seq by (simpl; lia).
  assert (unravel [1; A] j = [0; j]) as ->.
  { cbn [unravel numel foldr].
    rewrite Nat.mul_1_r, Nat.div_small, Nat.mod_small, Nat.div_1_r by lia. done. }
  f_equal. cbn [rev app ravel numel foldr]. lia.
Qed.

(** X1.  [ActionArgHead.forward] returns exactly on unbatched inputs with
    keys of width one: the encoded sub-observation is a matrix whose rows
    fit [W_k], the action-type logit is a vector that fits [W_q], [W_k] has
    a single output, and the observation embedding broadcasts with the
    output of [W_q] to a vector. *)
Theorem forward_returns_iff self obs logit enc :
  returns (ActionArgHead.forward self obs logit enc)
  ↔ ∃ A Hq,
      shape enc = [A; in_features (ActionArgHead.W_k self)]
      ∧ shape logit = [in_features (ActionArgHead.W_q self)]
      ∧ out_features (ActionArgHead.W_k self) = 1
      ∧ broadcast_shapes [out_features (ActionArgHead.W_q self)] (shape obs) = Some [Hq].
Proof.
  split.
  - intros [out H].
    apply forward_returns_inv in H
      as (key & q & query & A & Hq & _ & _ & Hadd & He & Hl & Hk & _ & Hqs & Hqu & _).
    exists A, Hq. repeat (split; [done|]).
    apply add_returns in Hadd as [Hb _]. by rewrite Hqs, Hqu in Hb.
  - intros (A & Hq & He & Hl & Hk & Hb). unfold ActionArgHead.forward.
    destruct (Linear_forward_matching (ActionArgHead.W_k self) enc
                (in_features (ActionArgHead.W_k self)) [A]) as (key & -> & Hks);
      [by rewrite He | done |].
    destruct (Linear_forward_matching (ActionArgHead.W_q self) logit
                (in_features (ActionArgHead.W_q self)) []) as (q & -> & Hqs);
      [by rewrite Hl | done |].
    simpl in Hks, Hqs. cbn [mbind result_bind].
    unfold add. rewrite Hqs, Hb. cbn [mbind result_bind].
    unfold unsqueeze, ndim. simpl. cbn [mbind result_bind].
    unfold mm. simpl. rewrite Hks, Hk. simpl. cbn [mbind result_bind].
    unfold squeeze, ndim. simpl. eexists. reflexivity.
Qed.

Lemma forward_returns_full self obs logit enc out :
  ActionArgHead.forward self obs logit enc = Ok out →
  ∃ key q query A Hq,
    Linear_forward (ActionArgHead.W_k self) enc = Ok key
    ∧ Linear_forward (ActionArgHead.W_q self) logit = Ok q
    ∧ add q obs = Ok query
    ∧ shape enc = [A; in_features (ActionArgHead.W_k self)]
    ∧ shape key = [A; 1] ∧ shape query = [Hq]
    ∧ shape out = (if decide (A = 1) then [Hq] else [Hq; A])
    ∧ data out = flat_map (λ i, map (λ a, (entry query i * entry key a)%Z) (seq 0 A))
                          (seq 0 Hq).
Proof.
  intros H.
  apply forward_returns_inv in H
    as (key & q & query & A & Hq & Hkey & Hql & Hadd & He & _ & _ & Hks & _ & Hqu
        & c & Hmm & Hsq).
  exists key, q, query, A, Hq. repeat (split; [done|]).
  apply mm_returns in Hmm as (n & m & p & Ha & Hb & Hc & Hdata).
  simpl in Ha. injection Ha as <- <-.
  assert (p = A) as ->.
  { unfold T in Hb. simpl in Hb. rewrite Hks in Hb. simpl in Hb. by injection Hb. }
  destruct (squeeze_matrix c Hq A out Hc Hsq) as [Hd Hs].
  split; [done|]. rewrite Hd, Hdata.
  apply flat_map_ext. intros i. apply map_ext_in. intros a Ha.
  apply in_seq in Ha. simpl.
  rewrite Z.add_0_r, Nat.mul_1_r, Nat.add_0_r.
  rewrite (T_column key A a) by (done || lia). done.
Qed.

(** X2.  When [ActionArgHead.forward] returns, the result is the outer
    product of the query vector and the key column: entry (i, a) is
    [query[i] * key[a]], of shape (Hq, A), or (Hq) when there is a single
    key. *)
Theorem forward_unbatched_outer_product self obs logit enc out :
  ActionArgHead.forward self obs logit enc = Ok out →
  ∃ key q query A Hq,
    Linear_forward (ActionArgHead.W_k self) enc = Ok key
    ∧ Linear_forward (ActionArgHead.W_q self) logit = Ok q
    ∧ add q obs = Ok query
    ∧ shape key = [A; 1] ∧ shape query = [Hq]
    ∧ shape out = (if decide (A = 1) then [Hq] else [Hq; A])
    ∧ data out = flat_map (λ i, map (λ a, (entry query i * entry key a)%Z) (seq 0 A))
                          (seq 0 Hq).
Proof.
  intros H.
  apply forward_returns_full in H
    as (key & q & query & A & Hq & Hkey & Hql & Hadd & _ & Hks & Hqu & Hs & Hd).
  by exists key, q, query, A, Hq.
Qed.

Lemma forward_returns_iff_witness :
  returns (ActionArgHead.forward unbatched_arg_head unbatched_obs unbatched_logit
             unbatched_part_obs).
Proof.
  apply (proj2 (forward_returns_iff unbatched_arg_head unbatched_obs unbatched_logit
                  unbatched_part_obs)).
  exists 3, 1. repeat split; reflexivity.
Defined.

Lemma forward_unbatched_outer_product_witness :
  ∃ key q query A Hq,
    Linear_forward (ActionArgHead.W_k unbatched_arg_head) unbatched_part_obs = Ok key
    ∧ Linear_forward (ActionArgHead.W_q unbatched_arg_head) unbatched_logit = Ok q
    ∧ add q unbatched_obs = Ok query
    ∧ shape key = [A; 1] ∧ shape query = [Hq]
    ∧ shape {| shape := [1; 3]; data := [20; 140; 40]%Z |}
      = (if decide (A = 1) then [Hq] else [Hq; A])
    ∧ data {| shape := [1; 3]; data := [20; 140; 40]%Z |}
      = flat_map (λ i, map (λ a, (entry query i * entry key a)%Z) (seq 0 A)) (seq 0 Hq).
Proof.
  apply (forward_unbatched_outer_product unbatched_arg_head unbatched_obs
           unbatched_logit unbatched_part_obs).
  reflexivity.
Defined.

(** ** What [GenshinVAC.forward] can return *)

(** X3.  [forward] returns a result only in mode 'compute_critic', and the
    result is then that of [compute_critic] on [inputs]: every other mode
    raises, the two actor modes because [forward] passes a single
    argument. *)
Theorem forward_returns_only_compute_critic
    (self : GenshinVAC.t) (inputs : Inputs) (mode : string) (out : PyVal) :
  GenshinVAC.forward self inputs mode = Ok out →
  mode = "compute_critic" ∧ GenshinVAC.compute_critic self inputs = Ok out.
Proof.
  unfold GenshinVAC.forward. case_decide as Hmode; [|discriminate].
  unfold GenshinVAC.mode in Hmode.
  rewrite !elem_of_cons, elem_of_nil in Hmode.
  destruct Hmode as [->|[->|[->|[]]]]; [discriminate| |discriminate].
  intros H. split; [done|exact H].
Qed.

Lemma forward_returns_only_compute_critic_witness :
  "compute_critic" = "compute_critic"
  ∧ GenshinVAC.compute_critic toy_self (InTensor toy_obs)
    = Ok (PDict [("value", PTensor {| shape := [1; 1]; data := [3%Z] |})]).
Proof.
  apply (forward_returns_only_compute_critic toy_self (InTensor toy_obs)
           "compute_critic").
  vm_compute. reflexivity.
Defined.

(** ** The mapping of argument heads, in any global scope *)

Lemma add_arg_head_fold_lookup F G space enc_shape obs_shape names d0 d' :
  foldl (GenshinVAC.add_arg_head F G space enc_shape obs_shape) (Ok d0) names = Ok d' →
  (∀ name, name ∈ names → name ∉ ["elemental_harmony"; "end_round"] →
     ∃ head, GenshinVAC.new_arg_head F G space enc_shape obs_shape name = Ok head
             ∧ d' !! name = Some head)
  ∧ (∀ name, name ∉ names ∨ name ∈ ["elemental_harmony"; "end_round"] →
       d' !! name = d0 !! name).
Proof.
  revert d0. induction names as [|n names IH]; intros d0; cbn [foldl].
  - intros [= <-]. split; [|done]. intros name H. by apply elem_of_nil in H.
  - unfold GenshinVAC.add_arg_head at 2. cbn [mbind result_bind].
    case_decide as Hn.
    + intros H. apply IH in H as [Hnew Hold]. split.
      * intros name Hin Hnot. apply elem_of_cons in Hin as [->|Hin]; [done|].
        by apply Hnew.
      * intros name [Hname|Hname]; apply Hold; [|by right].
        left. intros Hin. apply Hname. by apply elem_of_cons; right.
    + destruct (GenshinVAC.new_arg_head F G space enc_shape obs_shape n) as [head|e] eqn:E;
        cbn [mbind result_bind].
      2:{ rewrite add_arg_head_fold_raise. discriminate. }
      intros H. apply IH in H as [Hnew Hold]. split.
      * intros name Hin Hnot. apply elem_of_cons in Hin as [->|Hin]; [|by apply Hnew].
        destruct (decide (n ∈ names)) as [Hnin|Hnin]; [by apply Hnew|].
        exists head. split; [done|].
        rewrite Hold by (by left). apply lookup_insert_eq.
      * intros name Hname. rewrite Hold.
        -- rewrite lookup_insert_ne; [done|]. intros ->.
           destruct Hname as [Hname|Hname]; [|done].
           apply Hname, elem_of_cons. by left.
        -- destruct Hname as [Hname|Hname]; [|by right].
           left. intros Hin. apply Hname. by apply elem_of_cons; right.
Qed.

(** X4.  In any global scope, when the comprehension of lines 97-105
    returns, its keys are exactly the names of the action-argument space
    other than 'elemental_harmony' and 'end_round', and the head under a name
    is the [ActionArgHead] that lines 98-103 build for it. *)
Theorem build_actor_action_args_lookup
    (F : Framework) (G : gmap string GlobalVal) (action_space : ActionSpace)
    (encoded_obs_shape : gmap string nat) (obs_embedding_shape : ShapeArg)
    (d : gmap string ActionArgHead.t) :
  GenshinVAC.build_actor_action_args F G action_space encoded_obs_shape
    obs_embedding_shape = Ok d →
  ∀ name head,
    d !! name = Some head
    ↔ name ∈ action_arg_space action_space
      ∧ (name ∉ ["elemental_harmony"; "end_round"])
      ∧ GenshinVAC.new_arg_head F G action_space encoded_obs_shape obs_embedding_shape
          name = Ok head.
Proof.
  unfold GenshinVAC.build_actor_action_args. intros H name head.
  apply add_arg_head_fold_lookup in H as [Hnew Hold].
  destruct (decide (name ∈ action_arg_space action_space)) as [Hin|Hin].
  - destruct (decide (name ∈ ["elemental_harmony"; "end_round"])) as [Hex|Hex].
    + rewrite Hold by (by right). rewrite lookup_empty. split; [done|].
      by intros (_ & Hnot & _).
    + destruct (Hnew name Hin Hex) as (head' & Hh & Hd). rewrite Hd. split.
      * intros [= <-]. done.
      * intros (_ & _ & Hh'). rewrite Hh in Hh'. by injection Hh' as <-.
  - rewrite Hold by (by left). rewrite lookup_empty. split; [done|].
    by intros (Hin' & _).
Qed.

Lemma build_actor_action_args_lookup_witness :
  ({[ "play_card" := toy_arg_head_22; "use_skill" := toy_arg_head_22 ]}
     : gmap string ActionArgHead.t) !! "use_skill" = Some toy_arg_head_22
  ↔ "use_skill" ∈ ["play_card"; "use_skill"; "elemental_harmony"; "end_round"]
    ∧ ("use_skill" ∉ ["elemental_harmony"; "end_round"])
    ∧ GenshinVAC.new_arg_head toy_framework completed_globals
        (mkActionSpace 3 ["play_card"; "use_skill"; "elemental_harmony"; "end_round"])
        {[ "card_obs" := 2; "skill_obs" := 2 ]} (SInt 2) "use_skill"
      = Ok toy_arg_head_22.
Proof.
  apply (build_actor_action_args_lookup toy_framework completed_globals
           (mkActionSpace 3 ["play_card"; "use_skill"; "elemental_harmony"; "end_round"])
           {[ "card_obs" := 2; "skill_obs" := 2 ]} (SInt 2)).
  vm_compute. reflexivity.
Defined.

(** The static table of line 59 has exactly three entries. *)
Lemma action_obs_name_map_lookup name obs_name :
  GenshinVAC.action_obs_name_map !! name = Some obs_name
  ↔ (name = "play_card" ∧ obs_name = "card_obs")
    ∨ (name = "use_skill" ∧ obs_name = "skill_obs")
    ∨ (name = "change_character" ∧ obs_name = "character_obs").
Proof.
  unfold GenshinVAC.action_obs_name_map.
  rewrite !lookup_insert_Some, lookup_singleton_Some. split.
  - intros [[<- <-]|[_ [[<- <-]|[_ [<- <-]]]]]; auto.
  - intros [[-> ->]|[[-> ->]|[-> ->]]]; [by left| |]; right; (split; [done|]).
    + by left.
    + right. split; done.
Qed.

Lemma new_arg_head_returns F G space enc_shape obs_shape name head :
  GenshinVAC.new_arg_head F G space enc_shape obs_shape name = Ok head →
  ∃ tbl obs_name part_shape,
    G !! "action_obs_name_map" = Some tbl
    ∧ getitem_str tbl name = Ok obs_name
    ∧ enc_shape !! obs_name = Some part_shape
    ∧ nn_Linear F part_shape obs_shape = Ok (ActionArgHead.W_k head)
    ∧ nn_Linear F (action_type_space_n space) obs_shape = Ok (ActionArgHead.W_q head).
Proof.
  unfold GenshinVAC.new_arg_head. intros H.
  apply bind_Ok in H as (tbl & Htbl & H).
  apply bind_Ok in H as (obs_name & Hobs & H).
  apply bind_Ok in H as (part_shape & Hpart & H).
  unfold ActionArgHead.__init__ in H.
  apply bind_Ok in H as (Wk & Hk & H).
  apply bind_Ok in H as (Wq & Hq & [= <-]).
  exists tbl, obs_name, part_shape. simpl.
  unfold load_global in Htbl. destruct (G !! "action_obs_name_map"); [|done].
  injection Htbl as ->.
  unfold dict_getitem in Hpart. destruct (enc_shape !! obs_name); [|done].
  injection Hpart as ->. done.
Qed.

(** X5.  In a scope where [action_obs_name_map] is the table of line 59,
    the comprehension returns only if every name of the action-argument
    space, the two excluded ones apart, is 'play_card', 'use_skill' or
    'change_character' and its observation name is a key of
    [encoded_obs_shape]; the key layer of its head then has that input
    width and the query layer has one input per action type. *)
Theorem arg_heads_need_mapped_names
    (F : Framework) (G : gmap string GlobalVal) (action_space : ActionSpace)
    (encoded_obs_shape : gmap string nat) (obs_embedding_shape : ShapeArg)
    (d : gmap string ActionArgHead.t) (name : string) :
  G !! "action_obs_name_map" = Some (GDictStrStr GenshinVAC.action_obs_name_map) →
  GenshinVAC.build_actor_action_args F G action_space encoded_obs_shape
    obs_embedding_shape = Ok d →
  name ∈ action_arg_space action_space →
  name ∉ ["elemental_harmony"; "end_round"] →
  name ∈ ["play_card"; "use_skill"; "change_character"]
  ∧ ∃ obs_name part_shape head,
      GenshinVAC.action_obs_name_map !! name = Some obs_name
      ∧ encoded_obs_shape !! obs_name = Some part_shape
      ∧ d !! name = Some head
      ∧ nn_Linear F part_shape obs_embedding_shape = Ok (ActionArgHead.W_k head)
      ∧ nn_Linear F (action_type_space_n action_space) obs_embedding_shape
        = Ok (ActionArgHead.W_q head).
Proof.
  intros HG Hbuild Hin Hnot.
  unfold GenshinVAC.build_actor_action_args in Hbuild.
  apply add_arg_head_fold_lookup in Hbuild as [Hnew _].
  destruct (Hnew name Hin Hnot) as (head & Hhead & Hd).
  apply new_arg_head_returns in Hhead
    as (tbl & obs_name & part_shape & Htbl & Hobs & Hpart & Hk & Hq).
  rewrite HG in Htbl. injection Htbl as <-.
  unfold getitem_str in Hobs.
  destruct (GenshinVAC.action_obs_name_map !! name) as [o|] eqn:E; [|done].
  injection Hobs as ->.
  split.
  - apply action_obs_name_map_lookup in E.
    destruct E as [[-> _]|[[-> _]|[-> _]]]; compute_done.
  - by exists obs_name, part_shape, head.
Qed.

Lemma arg_heads_need_mapped_names_witness :
  "use_skill" ∈ ["play_card"; "use_skill"; "change_character"]
  ∧ ∃ obs_name part_shape head,
      GenshinVAC.action_obs_name_map !! "use_skill" = Some obs_name
      ∧ ({[ "card_obs" := 2; "skill_obs" := 2 ]} : gmap string nat) !! obs_name
        = Some part_shape
      ∧ ({[ "play_card" := toy_arg_head_22; "use_skill" := toy_arg_head_22 ]}
           : gmap string ActionArgHead.t) !! "use_skill" = Some head
      ∧ nn_Linear toy_framework part_shape (SInt 2) = Ok (ActionArgHead.W_k head)
      ∧ nn_Linear toy_framework 3 (SInt 2) = Ok (ActionArgHead.W_q head).
Proof.
  apply (arg_heads_need_mapped_names toy_framework completed_globals
           (mkActionSpace 3 ["play_card"; "use_skill"; "end_round"])
           {[ "card_obs" := 2; "skill_obs" := 2 ]} (SInt 2)).
  - vm_compute. reflexivity.
  - vm_compute. reflexivity.
  - compute_done.
  - compute_done.
Defined.

(** An unmapped name, or a missing observation shape, stops the
    construction with a [KeyError]. *)
Example unmapped_name_raises_KeyError :
  GenshinVAC.build_actor_action_args toy_framework completed_globals
    (mkActionSpace 3 ["play_card"; "summon"]) {[ "card_obs" := 2 ]} (SInt 2)
  = Raise (KeyError "summon")
  ∧ GenshinVAC.build_actor_action_args toy_framework completed_globals
      (mkActionSpace 3 ["play_card"; "use_skill"]) {[ "card_obs" := 2 ]} (SInt 2)
    = Raise (KeyError "skill_obs").
Proof. split; vm_compute; reflexivity. Qed.

(** ** [__init__] in any global scope *)

(** X6.  In any global scope, [__init__] returns an instance only if the
    scope binds [actor_head_layer_num], and [action_obs_name_map] as well
    when some argument group is not excluded.  The instance then holds the
    critic head built from [critic_head_hidden_size] with a single output,
    the action-type head built from the squeezed embedding shape, the number
    of action types and the bound layer count, the squeezed embedding shape
    and the mapping of the comprehension. *)
Theorem init_returns_only_with_bound_names
    (F : Framework) (G : gmap string GlobalVal)
    (obs_embedding_shape action_shape : ShapeArg)
    (action_space : ActionSpace) (encoded_obs_shape : gmap string nat)
    (critic_head_hidden_size critic_head_layer_num : nat)
    (activation : Activation F) (norm_type : option string) (self : GenshinVAC.t) :
  GenshinVAC.__init__ F G obs_embedding_shape action_shape action_space
    encoded_obs_shape critic_head_hidden_size critic_head_layer_num activation norm_type
  = Ok self →
  (∃ layer_num,
     G !! "actor_head_layer_num" = Some layer_num
     ∧ DiscreteHead F (ding_squeeze F obs_embedding_shape)
         (action_type_space_n action_space) layer_num activation norm_type
       = Ok (GenshinVAC.actor_action_type self))
  ∧ (Exists (λ name, name ∉ ["elemental_harmony"; "end_round"])
       (action_arg_space action_space) →
     is_Some (G !! "action_obs_name_map"))
  ∧ RegressionHead F critic_head_hidden_size 1 critic_head_layer_num activation norm_type
    = Ok (GenshinVAC.critic_head self)
  ∧ GenshinVAC.build_actor_action_args F G action_space encoded_obs_shape
      (ding_squeeze F obs_embedding_shape) = Ok (GenshinVAC.actor_action_args self)
  ∧ GenshinVAC.obs_embedding_shape self = ding_squeeze F obs_embedding_shape
  ∧ GenshinVAC.action_shape self = action_shape.
Proof.
  unfold GenshinVAC.__init__. intros H.
  apply bind_Ok in H as (critic & Hcritic & H).
  apply bind_Ok in H as (layer_num & Hlayer & H).
  apply bind_Ok in H as (actor & Hactor & H).
  apply bind_Ok in H as (args & Hargs & [= <-]). simpl.
  unfold load_global in Hlayer.
  destruct (G !! "actor_head_layer_num") as [v|] eqn:Ev; [|done].
  injection Hlayer as ->.
  split; [by exists layer_num|].
  split; [|done].
  intros Hex. destruct (G !! "action_obs_name_map") eqn:E; [done|].
  destruct (build_actor_action_args_unbound F G action_space encoded_obs_shape
              (ding_squeeze F obs_embedding_shape) E) as [_ Hr].
  rewrite (Hr Hex) in Hargs. discriminate.
Qed.

Lemma init_returns_only_with_bound_names_witness :
  (∃ layer_num,
     completed_globals !! "actor_head_layer_num" = Some layer_num
     ∧ DiscreteHead toy_framework (ding_squeeze toy_framework (SSeq [2])) 3 layer_num
         () None = Ok (GenshinVAC.actor_action_type toy_built_self))
  ∧ (Exists (λ name, name ∉ ["elemental_harmony"; "end_round"])
       ["play_card"; "end_round"] →
     is_Some (completed_globals !! "action_obs_name_map"))
  ∧ RegressionHead toy_framework 64 1 1 () None
    = Ok (GenshinVAC.critic_head toy_built_self)
  ∧ GenshinVAC.build_actor_action_args toy_framework completed_globals
      (mkActionSpace 3 ["play_card"; "end_round"]) {[ "card_obs" := 2 ]}
      (ding_squeeze toy_framework (SSeq [2]))
    = Ok (GenshinVAC.actor_action_args toy_built_self)
  ∧ GenshinVAC.obs_embedding_shape toy_built_self
    = ding_squeeze toy_framework (SSeq [2])
  ∧ GenshinVAC.action_shape toy_built_self = SInt 3.
Proof.
  apply (init_returns_only_with_bound_names toy_framework completed_globals
           (SSeq [2]) (SInt 3) (mkActionSpace 3 ["play_card"; "end_round"])
           {[ "card_obs" := 2 ]} 64 1 () None toy_built_self).
  vm_compute. reflexivity.
Defined.

(** ** The selection block, in any global scope *)

Lemma argmax_from_spec l : ∀ bi b i,
  (argmax_from bi b i l = bi ∧ Forall (λ x, (x ≤ b)%Z) l)
  ∨ (i ≤ argmax_from bi b i l < i + length l
     ∧ (b < nth (argmax_from bi b i l - i) l 0)%Z
     ∧ Forall (λ x, (x ≤ nth (argmax_from bi b i l - i) l 0)%Z) l).
Proof.
  induction l as [|x l IH]; intros bi b i; cbn [argmax_from].
  - left. split; [done|]. constructor.
  - destruct (b <? x)%Z eqn:E.
    + apply Z.ltb_lt in E. right.
      destruct (IH i x (S i)) as [[Hr Hall]|(Hr & Hlt & Hall)].
      * rewrite Hr, Nat.sub_diag. cbn [nth length]. split; [lia|]. split; [done|].
        constructor; [lia|done].
      * set (r := argmax_from i x (S i) l) in *.
        replace (r - i) with (S (r - S i)) by lia. cbn [nth length].
        split; [lia|]. split; [lia|]. constructor; [lia|done].
    + apply Z.ltb_ge in E.
      destruct (IH bi b (S i)) as [[Hr Hall]|(Hr & Hlt & Hall)].
      * left. split; [done|]. by constructor.
      * right. set (r := argmax_from bi b (S i) l) in *.
        replace (r - i) with (S (r - S i)) by lia. cbn [nth length].
        split; [lia|]. split; [done|]. constructor; [lia|done].
Qed.

(** The index [argmax_list] returns is in range and points at a maximum. *)
Lemma argmax_list_spec l :
  l ≠ [] →
  argmax_list l < length l
  ∧ Forall (λ x, (x ≤ nth (argmax_list l) l 0)%Z) l.
Proof.
  destruct l as [|x l]; [done|]. intros _. cbn [argmax_list].
  destruct (argmax_from_spec l 0 x 1) as [[Hr Hall]|(Hr & Hlt & Hall)].
  - rewrite Hr. cbn [nth length]. split; [lia|]. constructor; [lia|done].
  - destruct (argmax_from 0 x 1 l) as [|r]; [lia|].
    replace (S r - 1) with r in * by lia. cbn [nth length].
    split; [lia|]. constructor; [lia|done].
Qed.

Lemma argmax_item_returns logit a :
  GenshinVAC.argmax_item logit = Ok a →
  a = Z.of_nat (argmax_list (data logit)) ∧ numel (shape logit) ≠ 0.
Proof.
  unfold GenshinVAC.argmax_item, argmax.
  case_decide as Hn; [discriminate|]. cbn [mbind result_bind].
  unfold item. cbn. intros [= <-]. done.
Qed.

Lemma entry_max_of_argmax t j :
  j < length (data t) → (entry t j ≤ entry t (argmax_list (data t)))%Z.
Proof.
  intros Hj. unfold entry.
  destruct (argmax_list_spec (data t)) as [_ Hall].
  { intros E. rewrite E in Hj. simpl in Hj. lia. }
  rewrite Forall_forall in Hall. apply Hall.
  apply list_elem_of_In, nth_In. done.
Qed.

(** Along dimension 1 of a matrix, [argmax(..., 1).item()] needs a single
    row and returns the argmax of that row. *)
Lemma argmax_dim_item_matrix L Hq A b :
  shape L = [Hq; A] →
  GenshinVAC.argmax_dim_item L 1 = Ok b →
  Hq = 1 ∧ A ≠ 0 ∧ b = Z.of_nat (argmax_list (map (entry L) (seq 0 A))).
Proof.
  intros Hs. unfold GenshinVAC.argmax_dim_item, argmax_dim.
  rewrite Hs. cbn [lookup list_lookup].
  case_decide as HA; [discriminate|]. cbn [mbind result_bind].
  unfold item. cbn [shape delete list_delete numel foldr].
  case_decide as Hone; [|discriminate]. intros [= <-].
  assert (Hq = 1) as -> by lia. split; [done|]. split; [done|].
  cbn. f_equal. f_equal. apply map_ext. intros j. f_equal. lia.
Qed.

Lemma argmax_dim_item_vector L Hq :
  shape L = [Hq] →
  GenshinVAC.argmax_dim_item L 1 = Raise (IndexError "Dimension out of range").
Proof.
  intros Hs. unfold GenshinVAC.argmax_dim_item, argmax_dim. by rewrite Hs.
Qed.

Lemma action_args_logit_of_returns G self obs enc logit a L :
  GenshinVAC.action_args_logit_of G self obs enc logit a = Ok L →
  ∃ names name tbl obs_name head part,
    G !! "action_type_names" = Some names
    ∧ getitem_int names a = Ok name
    ∧ G !! "action_obs_name_map" = Some tbl
    ∧ getitem_str tbl name = Ok obs_name
    ∧ GenshinVAC.actor_action_args self !! name = Some head
    ∧ enc !! obs_name = Some part
    ∧ ActionArgHead.forward head obs logit part = Ok L.
Proof.
  unfold GenshinVAC.action_args_logit_of. intros H.
  apply bind_Ok in H as (names & Hnames & H).
  apply bind_Ok in H as (name & Hname & H).
  apply bind_Ok in H as (tbl & Htbl & H).
  apply bind_Ok in H as (obs_name & Hobs & H).
  apply bind_Ok in H as (head & Hhead & H).
  apply bind_Ok in H as (part & Hpart & H).
  exists names, name, tbl, obs_name, head, part.
  unfold load_global in Hnames, Htbl. unfold dict_getitem in Hhead, Hpart.
  destruct (G !! "action_type_names"); [|done].
  destruct (G !! "action_obs_name_map"); [|done].
  destruct (GenshinVAC.actor_action_args self !! name); [|done].
  destruct (enc !! obs_name); [|done].
  by simplify_eq.
Qed.

Lemma select_action_argmax_returns F G self obs enc logit g r g' :
  GenshinVAC.select_action F G self obs enc "argmax" logit g = Ok (r, g') →
  g' = g
  ∧ ∃ a b L,
      r = Some (a, b)
      ∧ GenshinVAC.argmax_item logit = Ok a
      ∧ GenshinVAC.action_args_logit_of G self obs enc logit a = Ok L
      ∧ GenshinVAC.argmax_dim_item L 1 = Ok b.
Proof.
  unfold GenshinVAC.select_action.
  rewrite decide_False by done. rewrite decide_True by done. intros H.
  apply bind_Ok in H as (a & Ha & H).
  apply bind_Ok in H as (L & HL & H).
  apply bind_Ok in H as (b & Hb & [= <- <-]).
  split; [done|]. by exists a, b, L.
Qed.

(** X7.  In a scope that binds the two tables as the class attributes
    define them, an action type whose name is not 'play_card', 'use_skill'
    or 'change_character' (such as 'end_round') has no entry in
    [action_obs_name_map]: the step from the action type to its argument
    logit raises [KeyError] for that name, and so does the selection in
    either mode once that type is drawn. *)
Theorem unmapped_action_type_raises_KeyError
    (F : Framework) (G : gmap string GlobalVal) (self : GenshinVAC.t)
    (obs_embedding : Tensor) (encoded_obs : gmap string Tensor)
    (action_type_logit : Tensor) (names : gmap Z string) (action_type : Z)
    (name : string) :
  G !! "action_type_names" = Some (GDictIntStr names) →
  G !! "action_obs_name_map" = Some (GDictStrStr GenshinVAC.action_obs_name_map) →
  names !! action_type = Some name →
  name ∉ ["play_card"; "use_skill"; "change_character"] →
  GenshinVAC.action_args_logit_of G self obs_embedding encoded_obs action_type_logit
    action_type = Raise (KeyError name)
  ∧ (GenshinVAC.argmax_item action_type_logit = Ok action_type →
     ∀ g, GenshinVAC.select_action F G self obs_embedding encoded_obs "argmax"
            action_type_logit g = Raise (KeyError name))
  ∧ (∀ g g1, GenshinVAC.multinomial_item F g action_type_logit = Ok (action_type, g1) →
       GenshinVAC.select_action F G self obs_embedding encoded_obs "normal"
         action_type_logit g = Raise (KeyError name)).
Proof.
  intros Hnames Htbl Hname Hnot.
  assert (GenshinVAC.action_args_logit_of G self obs_embedding encoded_obs
            action_type_logit action_type = Raise (KeyError name)) as Hraise.
  { unfold GenshinVAC.action_args_logit_of.
    rewrite (load_global_bound _ _ _ Hnames). cbn [mbind result_bind getitem_int].
    rewrite Hname. cbn [mbind result_bind].
    rewrite (load_global_bound _ _ _ Htbl). cbn [mbind result_bind getitem_str].
    destruct (GenshinVAC.action_obs_name_map !! name) as [o|] eqn:E; [|done].
    exfalso. apply Hnot. apply action_obs_name_map_lookup in E.
    destruct E as [[-> _]|[[-> _]|[-> _]]]; compute_done. }
  split; [done|]. split.
  - intros Ha g. unfold GenshinVAC.select_action.
    rewrite decide_False by done. rewrite decide_True by done.
    rewrite Ha. cbn [mbind result_bind]. by rewrite Hraise.
  - intros g g1 Ha. unfold GenshinVAC.select_action.
    rewrite decide_True by done.
    rewrite Ha. cbn [mbind result_bind]. by rewrite Hraise.
Qed.

Lemma unmapped_action_type_raises_KeyError_witness :
  GenshinVAC.action_args_logit_of completed_globals unbatched_self unbatched_obs
    unbatched_encoded_obs {| shape := [4]; data := [0; 0; 0; 9]%Z |} 3
  = Raise (KeyError "end_round")
  ∧ (GenshinVAC.argmax_item {| shape := [4]; data := [0; 0; 0; 9]%Z |} = Ok 3%Z →
     ∀ g, GenshinVAC.select_action toy_framework completed_globals unbatched_self
            unbatched_obs unbatched_encoded_obs "argmax"
            {| shape := [4]; data := [0; 0; 0; 9]%Z |} g = Raise (KeyError "end_round"))
  ∧ (∀ g g1, GenshinVAC.multinomial_item toy_framework g
               {| shape := [4]; data := [0; 0; 0; 9]%Z |} = Ok (3%Z, g1) →
       GenshinVAC.select_action toy_framework completed_globals unbatched_self
         unbatched_obs unbatched_encoded_obs "normal"
         {| shape := [4]; data := [0; 0; 0; 9]%Z |} g = Raise (KeyError "end_round")).
Proof.
  apply (unmapped_action_type_raises_KeyError toy_framework completed_globals
           unbatched_self unbatched_obs unbatched_encoded_obs
           {| shape := [4]; data := [0; 0; 0; 9]%Z |}
           (GenshinVAC.action_type_names
              [("change_character", 2%Z); ("end_round", 3%Z);
               ("play_card", 0%Z); ("use_skill", 1%Z)]) 3 "end_round").
  - vm_compute. reflexivity.
  - vm_compute. reflexivity.
  - vm_compute. reflexivity.
  - compute_done.
Defined.

(** X8.  In any scope, when the 'argmax' selection returns, the generator
    is unchanged, the selected action type is the first index of a maximal
    entry of the action-type logit, and its name, read from
    [action_type_names], is a key of the argument-head mapping. *)
Theorem argmax_selects_maximal_action_type
    (F : Framework) (G : gmap string GlobalVal) (self : GenshinVAC.t)
    (obs_embedding : Tensor) (encoded_obs : gmap string Tensor)
    (action_type_logit : Tensor) (g g' : Rng F) (action_type action_args : Z) :
  GenshinVAC.select_action F G self obs_embedding encoded_obs "argmax"
    action_type_logit g = Ok (Some (action_type, action_args), g') →
  g' = g
  ∧ action_type = Z.of_nat (argmax_list (data action_type_logit))
  ∧ (∀ j, j < length (data action_type_logit) →
          (entry action_type_logit j
           ≤ entry action_type_logit (argmax_list (data action_type_logit)))%Z)
  ∧ ∃ names name,
      G !! "action_type_names" = Some names
      ∧ getitem_int names action_type = Ok name
      ∧ is_Some (GenshinVAC.actor_action_args self !! name).
Proof.
  intros H.
  apply select_action_argmax_returns in H as (-> & a & b & L & [= <- <-] & Ha & HL & _).
  apply argmax_item_returns in Ha as [-> _].
  apply action_args_logit_of_returns in HL
    as (names & name & _ & _ & head & _ & Hnames & Hname & _ & _ & Hhead & _).
  split; [done|]. split; [done|]. split; [apply entry_max_of_argmax|].
  exists names, name. by rewrite Hhead.
Qed.

Lemma argmax_selects_maximal_action_type_witness :
  0 = 0
  ∧ 1%Z = Z.of_nat (argmax_list (data unbatched_logit))
  ∧ (∀ j, j < length (data unbatched_logit) →
          (entry unbatched_logit j
           ≤ entry unbatched_logit (argmax_list (data unbatched_logit)))%Z)
  ∧ ∃ names name,
      completed_globals !! "action_type_names" = Some names
      ∧ getitem_int names 1 = Ok name
      ∧ is_Some (GenshinVAC.actor_action_args unbatched_self !! name).
Proof.
  apply (argmax_selects_maximal_action_type toy_framework completed_globals
           unbatched_self unbatched_obs unbatched_encoded_obs unbatched_logit 0 0 1 1).
  vm_compute. reflexivity.
Defined.

(** X9.  In any scope, when the 'argmax' selection returns, the region
    named for the selected action type is a matrix of at least two rows,
    the query is a single number, and the selected argument index is a row
    of that region whose key, multiplied by the query, is maximal. *)
Theorem argmax_selects_row_of_region
    (F : Framework) (G : gmap string GlobalVal) (self : GenshinVAC.t)
    (obs_embedding : Tensor) (encoded_obs : gmap string Tensor)
    (action_type_logit : Tensor) (g g' : Rng F) (action_type action_args : Z) :
  GenshinVAC.select_action F G self obs_embedding encoded_obs "argmax"
    action_type_logit g = Ok (Some (action_type, action_args), g') →
  ∃ names name tbl obs_name head part key q query A b,
    G !! "action_type_names" = Some names
    ∧ getitem_int names action_type = Ok name
    ∧ G !! "action_obs_name_map" = Some tbl
    ∧ getitem_str tbl name = Ok obs_name
    ∧ GenshinVAC.actor_action_args self !! name = Some head
    ∧ encoded_obs !! obs_name = Some part
    ∧ shape part = [A; in_features (ActionArgHead.W_k head)]
    ∧ 2 ≤ A
    ∧ action_args = Z.of_nat b ∧ b < A
    ∧ Linear_forward (ActionArgHead.W_k head) part = Ok key
    ∧ Linear_forward (ActionArgHead.W_q head) action_type_logit = Ok q
    ∧ add q obs_embedding = Ok query
    ∧ shape query = [1]
    ∧ ∀ j, j < A →
        (entry query 0 * entry key j ≤ entry query 0 * entry key b)%Z.
Proof.
  intros H.
  apply select_action_argmax_returns in H as (_ & a & b & L & [= <- <-] & _ & HL & Hb).
  apply action_args_logit_of_returns in HL
    as (names & name & tbl & obs_name & head & part
        & Hnames & Hname & Htbl & Hobs & Hhead & Hpart & Hfwd).
  apply forward_returns_full in Hfwd
    as (key & q & query & A & Hq & Hkey & Hql & Hadd & Hps & Hks & Hqu & HLs & HLd).
  destruct (decide (A = 1)) as [->|HA1].
  { by rewrite (argmax_dim_item_vector L Hq HLs) in Hb. }
  apply (argmax_dim_item_matrix L Hq A action_args HLs) in Hb as (-> & HA0 & ->).
  assert (map (entry L) (seq 0 A)
          = map (λ a, (entry query 0 * entry key a)%Z) (seq 0 A)) as Hrow.
  { apply map_ext_in. intros j Hj. apply in_seq in Hj.
    unfold entry at 1. rewrite HLd. cbn [seq flat_map]. rewrite app_nil_r.
    rewrite (nth_indep _ 0%Z ((λ a, (entry query 0 * entry key a)%Z) 0))
      by (rewrite length_map, length_seq; lia).
    rewrite (map_nth (λ a, (entry query 0 * entry key a)%Z)), seq_nth by lia. done. }
  rewrite Hrow.
  set (row := map (λ a, (entry query 0 * entry key a)%Z) (seq 0 A)).
  assert (length row = A) as Hlen by (unfold row; by rewrite length_map, length_seq).
  destruct (argmax_list_spec row) as [Hlt Hall].
  { intros E. rewrite E in Hlen. simpl in Hlen. lia. }
  exists names, name, tbl, obs_name, head, part, key, q, query, A, (argmax_list row).
  repeat (split; [done || lia|]).
  intros j Hj. rewrite Forall_forall in Hall.
  assert (∀ i, i < A → nth i row 0%Z = (entry query 0 * entry key i)%Z) as Hnth.
  { intros i Hi. unfold row.
    rewrite (nth_indep _ 0%Z ((λ a, (entry query 0 * entry key a)%Z) 0))
      by (rewrite length_map, length_seq; lia).
    rewrite (map_nth (λ a, (entry query 0 * entry key a)%Z)), seq_nth by lia. done. }
  rewrite <- (Hnth j Hj), <- (Hnth (argmax_list row)) by lia.
  apply Hall, list_elem_of_In, nth_In. lia.
Qed.

Lemma argmax_selects_row_of_region_witness :
  ∃ names name tbl obs_name head part key q query A b,
    completed_globals !! "action_type_names" = Some names
    ∧ getitem_int names 1 = Ok name
    ∧ completed_globals !! "action_obs_name_map" = Some tbl
    ∧ getitem_str tbl name = Ok obs_name
    ∧ GenshinVAC.actor_action_args unbatched_self !! name = Some head
    ∧ unbatched_encoded_obs !! obs_name = Some part
    ∧ shape part = [A; in_features (ActionArgHead.W_k head)]
    ∧ 2 ≤ A
    ∧ 1%Z = Z.of_nat b ∧ b < A
    ∧ Linear_forward (ActionArgHead.W_k head) part = Ok key
    ∧ Linear_forward (ActionArgHead.W_q head) unbatched_logit = Ok q
    ∧ add q unbatched_obs = Ok query
    ∧ shape query = [1]
    ∧ ∀ j, j < A →
        (entry query 0 * entry key j ≤ entry query 0 * entry key b)%Z.
Proof.
  apply (argmax_selects_row_of_region toy_framework completed_globals unbatched_self
           unbatched_obs unbatched_encoded_obs unbatched_logit 0 0 1 1).
  vm_compute. reflexivity.
Defined.

(** X10.  When the region handed to an argument head has a single row, the
    logit [forward] returns is a vector, and [torch.argmax(logit, 1)] of
    line 141 raises [IndexError]: a region with one argument can not be
    selected from with 'argmax'. *)
Theorem single_row_region_raises_IndexError
    (head : ActionArgHead.t) (obs_embedding action_type_logit part logit : Tensor)
    (width : nat) :
  ActionArgHead.forward head obs_embedding action_type_logit part = Ok logit →
  shape part = [1; width] →
  GenshinVAC.argmax_dim_item logit 1 = Raise (IndexError "Dimension out of range").
Proof.
  intros Hfwd Hpart.
  apply forward_returns_full in Hfwd
    as (key & q & query & A & Hq & _ & _ & _ & Hps & _ & _ & Hs & _).
  rewrite Hpart in Hps. injection Hps as <- _.
  rewrite decide_True in Hs by done.
  by apply argmax_dim_item_vector with Hq.
Qed.

Lemma single_row_region_raises_IndexError_witness :
  GenshinVAC.argmax_dim_item {| shape := [1]; data := [140%Z] |} 1
  = Raise (IndexError "Dimension out of range").
Proof.
  apply (single_row_region_raises_IndexError unbatched_arg_head unbatched_obs
           unbatched_logit {| shape := [1; 2]; data := [2; 5]%Z |}
           {| shape := [1]; data := [140%Z] |} 2); reflexivity.
Defined.

(** ** The 'normal' selection, in any global scope *)

Lemma multinomial_item_vector F g t n x g1 :
  shape t = [n] →
  GenshinVAC.multinomial_item F g t = Ok (x, g1) →
  valid_weights (data t) = true
  ∧ ∃ i, categorical F g (data t) = (i, g1) ∧ x = Z.of_nat i.
Proof.
  intros Hs. unfold GenshinVAC.multinomial_item, multinomial. rewrite Hs.
  cbn [draw_rows]. destruct (valid_weights (data t)); [|discriminate].
  destruct (categorical F g (data t)) as [i g2] eqn:E.
  cbn [mbind result_bind]. unfold item. cbn.
  intros [= <- <-]. split; [done|]. by exists i.
Qed.

Lemma multinomial_item_matrix F g t m n x g1 :
  shape t = [m; n] → length (data t) = m * n →
  GenshinVAC.multinomial_item F g t = Ok (x, g1) →
  m = 1 ∧ valid_weights (data t) = true
  ∧ ∃ i, categorical F g (data t) = (i, g1) ∧ x = Z.of_nat i.
Proof.
  intros Hs Hlen. unfold GenshinVAC.multinomial_item, multinomial. rewrite Hs.
  intros H. apply bind_Ok in H as ([s g2] & Hm & H).
  apply bind_Ok in Hm as ([idxs g3] & Hrows & Hm).
  cbn beta iota in Hm. injection Hm as <- <-.
  cbn beta iota in H. apply bind_Ok in H as (y & Hitem & [= <- <-]).
  unfold item in Hitem. cbn [shape numel foldr] in Hitem.
  case_decide as Hone; [|discriminate]. assert (m = 1) as -> by lia.
  split; [done|].
  cbn [seq map draw_rows] in Hrows.
  rewrite Nat.mul_0_l, drop_0 in Hrows.
  rewrite Nat.mul_1_l in Hlen. rewrite <- Hlen, firstn_all in Hrows.
  destruct (valid_weights (data t)); [|discriminate].
  destruct (categorical F g (data t)) as [i g4] eqn:E.
  cbn [mbind result_bind] in Hrows. injection Hrows as <- <-.
  split; [done|]. exists i. split; [done|].
  injection Hitem as <-. done.
Qed.

Lemma length_flat_map_rows {A B} (f : nat → A → B) (row : list A) (l : list nat) :
  length (flat_map (λ i, map (f i) row) l) = length l * length row.
Proof.
  induction l as [|x l IH]; [done|].
  cbn [flat_map length]. rewrite length_app, length_map, IH. lia.
Qed.

Lemma select_action_normal_returns F G self obs enc logit g r g' :
  GenshinVAC.select_action F G self obs enc "normal" logit g = Ok (r, g') →
  ∃ a b g1 L,
    r = Some (a, b)
    ∧ GenshinVAC.multinomial_item F g logit = Ok (a, g1)
    ∧ GenshinVAC.action_args_logit_of G self obs enc logit a = Ok L
    ∧ GenshinVAC.multinomial_item F g1 L = Ok (b, g').
Proof.
  unfold GenshinVAC.select_action. rewrite decide_True by done. intros H.
  apply bind_Ok in H as ([a g1] & Ha & H). cbn beta iota in H.
  apply bind_Ok in H as (L & HL & H).
  apply bind_Ok in H as ([b g2] & Hb & H). cbn beta iota in H.
  injection H as <- <-.
  by exists a, b, g1, L.
Qed.

(** X12.  In any scope, when the 'normal' selection returns, both draws are
    taken from the raw scores: the action-type logit has no negative entry
    and a positive sum and the action type is the categorical draw from it;
    the argument logit has no negative entry and a positive sum either, and
    the argument index is the categorical draw from it, made with the
    generator state the first draw left. *)
Theorem normal_selection_draws_from_raw_scores
    (F : Framework) (G : gmap string GlobalVal) (self : GenshinVAC.t)
    (obs_embedding : Tensor) (encoded_obs : gmap string Tensor)
    (action_type_logit : Tensor) (g g' : Rng F) (action_type action_args : Z) :
  GenshinVAC.select_action F G self obs_embedding encoded_obs "normal"
    action_type_logit g = Ok (Some (action_type, action_args), g') →
  ∃ i j g1 action_args_logit,
    valid_weights (data action_type_logit) = true
    ∧ categorical F g (data action_type_logit) = (i, g1)
    ∧ action_type = Z.of_nat i
    ∧ GenshinVAC.action_args_logit_of G self obs_embedding encoded_obs
        action_type_logit action_type = Ok action_args_logit
    ∧ valid_weights (data action_args_logit) = true
    ∧ categorical F g1 (data action_args_logit) = (j, g')
    ∧ action_args = Z.of_nat j.
Proof.
  intros H.
  apply select_action_normal_returns in H
    as (a & b & g1 & L & [= <- <-] & Ha & HL & Hb).
  pose proof (action_args_logit_of_returns _ _ _ _ _ _ _ HL)
    as (names & name & tbl & obs_name & head & part & _ & _ & _ & _ & _ & _ & Hfwd).
  pose proof (forward_returns_inv _ _ _ _ _ Hfwd)
    as (_ & _ & _ & _ & _ & _ & _ & _ & _ & Hlogit & _).
  apply forward_returns_full in Hfwd
    as (key & q & query & A & Hq & _ & _ & _ & _ & _ & _ & HLs & HLd).
  apply (multinomial_item_vector F g action_type_logit _ _ _ Hlogit) in Ha
    as (Hvalid & i & Hi & ->).
  assert (valid_weights (data L) = true
          ∧ ∃ j, categorical F g1 (data L) = (j, g') ∧ action_args = Z.of_nat j)
    as (HvalidL & j & Hj & ->).
  { destruct (decide (A = 1)) as [->|HA].
    - by apply (multinomial_item_vector F g1 L Hq).
    - assert (length (data L) = Hq * A) as Hlen.
      { rewrite HLd.
        rewrite (length_flat_map_rows (λ i a, (entry query i * entry key a)%Z)).
        by rewrite !length_seq. }
      by destruct (multinomial_item_matrix F g1 L Hq A _ _ HLs Hlen Hb) as (_ & ? & ?). }
  by exists i, j, g1, L.
Qed.

Lemma normal_selection_draws_from_raw_scores_witness :
  ∃ i j g1 action_args_logit,
    valid_weights (data unbatched_logit) = true
    ∧ categorical toy_framework 1 (data unbatched_logit) = (i, g1)
    ∧ 1%Z = Z.of_nat i
    ∧ GenshinVAC.action_args_logit_of completed_globals unbatched_self unbatched_obs
        unbatched_encoded_obs unbatched_logit 1 = Ok action_args_logit
    ∧ valid_weights (data action_args_logit) = true
    ∧ categorical toy_framework g1 (data action_args_logit) = (j, 3)
    ∧ 2%Z = Z.of_nat j.
Proof.
  apply (normal_selection_draws_from_raw_scores toy_framework completed_globals
           unbatched_self unbatched_obs unbatched_encoded_obs unbatched_logit 1 3 1 2).
  vm_compute. reflexivity.
Defined.

(** A negative score makes the 'normal' selection raise. *)
Example normal_selection_negative_logit :
  GenshinVAC.select_action toy_framework completed_globals unbatched_self unbatched_obs
    unbatched_encoded_obs "normal" {| shape := [3]; data := [5; -1; 2]%Z |} 1
  = Raise (RuntimeError "invalid multinomial distribution").
Proof. vm_compute. reflexivity. Qed.

(** ** The class attribute [action_type_names] *)

Lemma action_type_names_fold_other (attrs : list (string * Z)) (d : gmap Z string) v :
  v ∉ attrs.*2 →
  foldl (λ d kv, <[kv.2 := kv.1]> d) d attrs !! v = d !! v.
Proof.
  revert d. induction attrs as [|[n0 v0] attrs IH]; intros d Hv; [done|].
  cbn [foldl]. cbn [fmap list_fmap] in Hv.
  apply not_elem_of_cons in Hv as [Hne Hv].
  rewrite IH by done. by rewrite lookup_insert_ne.
Qed.

Lemma action_type_names_fold_origin (attrs : list (string * Z)) (d : gmap Z string) v name :
  foldl (λ d kv, <[kv.2 := kv.1]> d) d attrs !! v = Some name →
  (name, v) ∈ attrs ∨ d !! v = Some name.
Proof.
  revert d. induction attrs as [|[n0 v0] attrs IH]; intros d H; [by right|].
  cbn [foldl] in H. apply IH in H as [H|H].
  - left. by apply elem_of_cons; right.
  - cbn in H. apply lookup_insert_Some in H as [[<- <-]|[_ H]].
    + left. apply elem_of_cons. by left.
    + by right.
Qed.

(** X11.  [action_type_names] inverts the enumeration: every entry [v ->
    name] comes from an attribute [name] of value [v]; an attribute is found
    under its value when no attribute after it in [dir] order has the same
    value, so with pairwise distinct values every attribute is found. *)
Theorem action_type_names_inverts_enumeration (attrs : list (string * Z)) :
  (∀ v name, GenshinVAC.action_type_names attrs !! v = Some name → (name, v) ∈ attrs)
  ∧ (∀ before after name v,
       attrs = before ++ (name, v) :: after → v ∉ after.*2 →
       GenshinVAC.action_type_names attrs !! v = Some name)
  ∧ (NoDup attrs.*2 →
     ∀ name v, (name, v) ∈ attrs → GenshinVAC.action_type_names attrs !! v = Some name).
Proof.
  unfold GenshinVAC.action_type_names.
  assert (∀ before after name v,
            attrs = before ++ (name, v) :: after → v ∉ after.*2 →
            foldl (λ d kv, <[kv.2 := kv.1]> d) (∅ : gmap Z string) attrs !! v
            = Some name) as Hlast.
  { intros before after name v -> Hv.
    rewrite foldl_app. cbn [foldl].
    rewrite action_type_names_fold_other by done. apply lookup_insert_eq. }
  split; [|split; [exact Hlast|]].
  - intros v name H. apply action_type_names_fold_origin in H as [H|H]; [done|].
    by rewrite lookup_empty in H.
  - intros Hnd name v Hin.
    apply list_elem_of_split in Hin as (before & after & ->).
    apply (Hlast before after); [done|].
    rewrite fmap_app in Hnd. apply NoDup_app in Hnd as (_ & _ & Hnd).
    cbn [fmap list_fmap] in Hnd. by apply NoDup_cons in Hnd as [Hv _].
Qed.

Lemma action_type_names_inverts_enumeration_witness :
  GenshinVAC.action_type_names
    [("change_character", 2%Z); ("end_round", 3%Z); ("play_card", 0%Z);
     ("use_skill", 1%Z)] !! 3%Z = Some "end_round".
Proof.
  apply (proj2 (proj2 (action_type_names_inverts_enumeration
           [("change_character", 2%Z); ("end_round", 3%Z); ("play_card", 0%Z);
            ("use_skill", 1%Z)]))).
  - compute_done.
  - compute_done.
Defined.

(** ** The exceptions of [ActionArgHead.forward] *)

Lemma mm_raises a b e : mm a b = Raise e → ∃ msg, e = RuntimeError msg.
Proof.
  unfold mm.
  destruct (shape a) as [|n [|m [|? ?]]]; try (intros [= <-]; eauto);
    destruct (shape b) as [|m' [|p [|? ?]]]; try (intros [= <-]; eauto).
  case_decide; [discriminate|]. intros [= <-]. eauto.
Qed.

(** X13.  Whatever its inputs, [ActionArgHead.forward] either returns or
    raises a [RuntimeError] (a width or shape mismatch in a linear layer,
    the addition or [torch.mm]): [unsqueeze(1)] and [squeeze(1)] are always
    in range where the code applies them. *)
Theorem forward_raises_only_RuntimeError
    (self : ActionArgHead.t) (obs_embedding action_type_logit encoded_part_obs : Tensor)
    (e : exn) :
  ActionArgHead.forward self obs_embedding action_type_logit encoded_part_obs = Raise e →
  ∃ msg, e = RuntimeError msg.
Proof.
  unfold ActionArgHead.forward.
  destruct (Linear_forward (ActionArgHead.W_k self) encoded_part_obs) as [key|e1] eqn:Ek;
    cbn [mbind result_bind];
    [|intros [= <-]; by apply Linear_forward_raises in Ek].
  destruct (Linear_forward (ActionArgHead.W_q self) action_type_logit) as [q|e1] eqn:Eq;
    cbn [mbind result_bind];
    [|intros [= <-]; by apply Linear_forward_raises in Eq].
  destruct (add q obs_embedding) as [query|e1] eqn:Ea; cbn [mbind result_bind];
    [|intros [= <-]; by apply add_raises in Ea].
  assert (1 ≤ ndim query) as Hnd.
  { apply add_ndim in Ea. apply Linear_forward_shape in Eq as (k & lead & _ & _ & Hs).
    unfold ndim in *. rewrite Hs, length_app in Ea. simpl in Ea. lia. }
  destruct (unsqueeze_in_range query 1 Hnd) as [query' ->]. cbn [mbind result_bind].
  destruct (mm query' (T key)) as [c|e1] eqn:Em; cbn [mbind result_bind];
    [|intros [= <-]; by apply mm_raises in Em].
  apply mm_returns in Em as (n & m & p & _ & _ & Hc & _).
  unfold squeeze, ndim. rewrite Hc. simpl. discriminate.
Qed.

Lemma forward_raises_only_RuntimeError_witness :
  ∃ msg, RuntimeError "self must be a matrix" = RuntimeError msg.
Proof.
  apply (forward_raises_only_RuntimeError toy_arg_head toy_obs toy_logit toy_part_obs).
  reflexivity.
Defined.

(** ** The methods in a scope where the assertion passes *)

(** With every bare name bound and unbatched inputs of hidden size one,
    [compute_actor] and [compute_actor_critic] return their dictionaries;
    with a sample type that is neither 'argmax' nor 'normal' no branch binds
    [action_type] and the [return] raises. *)
Example compute_actor_in_passing_scope :
  GenshinVAC.compute_actor toy_framework passing_globals unbatched_self unbatched_obs
    unbatched_encoded_obs "argmax" 0
  = Ok (PDict [("logit", PDict [("action_type", PInt 1); ("action_args", PInt 1)])], 0)
  ∧ GenshinVAC.compute_actor_critic toy_framework passing_globals unbatched_self
      unbatched_obs unbatched_encoded_obs "argmax" 0
    = Ok (PDict [("logit", PDict [("action_type", PInt 1); ("action_args", PInt 1)]);
                 ("value", PTensor {| shape := [1]; data := [5%Z] |})], 0)
  ∧ GenshinVAC.compute_actor toy_framework passing_globals unbatched_self unbatched_obs
      unbatched_encoded_obs "greedy" 0
    = Raise (UnboundLocalError "action_type").
Proof. split; [|split]; vm_compute; reflexivity. Qed.
